(** * The job lifecycle orchestrator of [frontend/static/js/app.js]

    A shallow embedding of the browser script: the page is a record of
    the DOM properties the script writes, the three module-level
    variables are fields of the state, and the event loop is a step
    function over events (a form submission, an interval timer firing,
    a pending [fetch] settling).  Every [async] function is cut at its
    [await]s on the network: the part before the [fetch] runs in the
    step that starts it, the part after runs in the step that settles
    the request.

    Strings are byte strings holding UTF-8 text, so that [includes] on
    them agrees with the substring test of JavaScript on well-formed
    text.  [console] output and scrolling are not part of the state. *)

From stdpp Require Import gmap strings list pretty.

(** ** JavaScript strings and values *)

Module JS.

Definition bytes (l : list nat) : string :=
  String.string_of_list_ascii (map Ascii.ascii_of_nat l).

Definition codes (s : string) : list nat :=
  map Ascii.nat_of_ascii (String.list_ascii_of_string s).

(** The double quote and the line feed, which string literals of the
    script contain. *)
Definition dq : string := bytes [34].
Definition nl : string := bytes [10].

(** A template literal: its pieces, one after the other. *)
Definition cat (l : list string) : string := foldr String.append "" l.

(** [s.includes(t)] *)
Fixpoint includes (s t : string) : bool :=
  String.prefix t s ||
  match s with
  | EmptyString => false
  | String _ s' => includes s' t
  end.

(** [a.join(sep)] on an array of strings *)
Definition join (sep : string) (a : list string) : string :=
  String.concat sep a.

(** Truthiness of a string, and of a property that holds a string or
    is missing ([None] stands for [undefined] and [null]). *)
Definition truthy (s : string) : bool :=
  match s with EmptyString => false | _ => true end.

Definition truthy_opt (v : option string) : bool :=
  match v with Some s => truthy s | None => false end.

(** [v || d] for such a property *)
Definition or_else (v : option string) (d : string) : string :=
  match v with
  | Some s => if truthy s then s else d
  | None => d
  end.

(** [`${v}`] for such a property *)
Definition to_string (v : option string) : string :=
  match v with Some s => s | None => "undefined" end.

(** White space and line terminators of ECMAScript, as UTF-8: what
    [trim] removes.  One byte: TAB, LF, VT, FF, CR, SP. *)
Definition ws1 (a : nat) : bool :=
  bool_decide (a = 9 ∨ a = 10 ∨ a = 11 ∨ a = 12 ∨ a = 13 ∨ a = 32).

(** Two bytes: U+00A0. *)
Definition ws2 (a b : nat) : bool :=
  bool_decide (a = 194 ∧ b = 160).

(** Three bytes: U+1680, U+2000 to U+200A, U+2028, U+2029, U+202F,
    U+205F, U+3000, U+FEFF. *)
Definition ws3 (a b c : nat) : bool :=
  bool_decide
    ((a = 225 ∧ b = 154 ∧ c = 128) ∨
     (a = 226 ∧ b = 128 ∧
      ((128 ≤ c)%nat ∧ (c ≤ 138)%nat ∨ c = 168 ∨ c = 169 ∨ c = 175)) ∨
     (a = 226 ∧ b = 129 ∧ c = 159) ∨
     (a = 227 ∧ b = 128 ∧ c = 128) ∨
     (a = 239 ∧ b = 187 ∧ c = 191)).

Fixpoint trimStart_codes (l : list nat) : list nat :=
  match l with
  | a :: l1 =>
      if ws1 a then trimStart_codes l1
      else
        match l1 with
        | b :: l2 =>
            if ws2 a b then trimStart_codes l2
            else
              match l2 with
              | c :: l3 => if ws3 a b c then trimStart_codes l3 else l
              | [] => l
              end
        | [] => l
        end
  | [] => []
  end.

(** The same from the end, on the reversed bytes. *)
Fixpoint trimEnd_codes_rev (l : list nat) : list nat :=
  match l with
  | c :: l1 =>
      if ws1 c then trimEnd_codes_rev l1
      else
        match l1 with
        | b :: l2 =>
            if ws2 b c then trimEnd_codes_rev l2
            else
              match l2 with
              | a :: l3 => if ws3 a b c then trimEnd_codes_rev l3 else l
              | [] => l
              end
        | [] => l
        end
  | [] => []
  end.

(** [s.trim()] *)
Definition trim (s : string) : string :=
  bytes (rev (trimEnd_codes_rev (rev (trimStart_codes (codes s))))).

Definition hex_digit (n : nat) : string :=
  String.substring n 1 "0123456789abcdef".

(** One character of a string inside [JSON.stringify]. *)
Definition json_escape (a : nat) : string :=
  if bool_decide (a = 34) then bytes [92; 34]
  else if bool_decide (a = 92) then bytes [92; 92]
  else if bool_decide (a = 8) then bytes [92] +:+ "b"
  else if bool_decide (a = 9) then bytes [92] +:+ "t"
  else if bool_decide (a = 10) then bytes [92] +:+ "n"
  else if bool_decide (a = 12) then bytes [92] +:+ "f"
  else if bool_decide (a = 13) then bytes [92] +:+ "r"
  else if bool_decide (a < 32)%nat
       then bytes [92] +:+ "u00" +:+ hex_digit (a / 16) +:+ hex_digit (a mod 16)
  else bytes [a].

(** [JSON.stringify(s)] for a string *)
Definition stringify_string (s : string) : string :=
  dq +:+ cat (map json_escape (codes s)) +:+ dq.

(** The text a [div] serialises to after [textContent = text]: the
    escaping of text nodes in the HTML fragment serialisation
    algorithm ([&], U+00A0, [<], [>]). *)
Fixpoint escape_text (l : list nat) : string :=
  match l with
  | a :: l1 =>
      if bool_decide (a = 38) then "&amp;" +:+ escape_text l1
      else if bool_decide (a = 60) then "&lt;" +:+ escape_text l1
      else if bool_decide (a = 62) then "&gt;" +:+ escape_text l1
      else
        match l1 with
        | b :: l2 =>
            if ws2 a b then "&nbsp;" +:+ escape_text l2
            else bytes [a] +:+ escape_text l1
        | [] => bytes [a]
        end
  | [] => ""
  end.

End JS.

Import JS.

(** ** Data model: the payloads of the HTTP API

    A property the script reads behind [||], [&&] or a truthiness test
    is an [option]; a property it reads unguarded has its plain type. *)

Record Summary := {
  nature : string;
  products_services : string;
  countries_operating : list string;
  countries_dealing_with : list string
}.

Record Flag := {
  flags_raised : bool;
  risk_level : option string;
  risk_score : option Z;
  risk_explanation : option string;
  matches : option (list string);
  evidence : option (list string)
}.

Record Flags := {
  sanctions : Flag;
  military : Flag;
  dual_use : Flag
}.

Record NaicsCodes := {
  primary_code : string;
  naics_all_codes : list string;   (* [naics_codes.codes] *)
  explanation : string
}.

Record Validation := {
  valid : bool;
  is_commercial : option bool;
  plausibility_note : option string;
  address_types : option (list string);
  image_path : option string
}.

Record Address := {
  address_text : option string;    (* [address.address] *)
  validation : Validation
}.

Record CompanyRegistration := {
  company_number : option string;
  vat_number : option string;
  eori_number : option string;
  company_name : option string;
  established_date : option string;
  country_of_registration : option string
}.

Record Result := {
  summary : Summary;
  flags : Flags;
  naics_codes : NaicsCodes;
  address : Address;
  company_registration : option CompanyRegistration
}.

Record HistoryItem := {
  item_url : string;
  item_status : string;
  item_created_at : string;
  item_job_id : string
}.

(** The object [response.json()] yields, with the properties any of the
    handlers reads. *)
Module Js.

Record Object := {
  job_id : option string;
  status : option string;
  progress : option Z;
  message : option string;
  error : option string;
  result : option Result;
  logs : option (list string);
  items : option (list HistoryItem)
}.

Definition empty : Object :=
  {| job_id := None; status := None; progress := None; message := None;
     error := None; result := None; logs := None; items := None |}.

End Js.

(** ** The network *)

Record request := {
  req_method : string;
  req_url : string;
  req_headers : list (string * string);
  req_body : option string
}.

Definition GET (url : string) : request :=
  {| req_method := "GET"; req_url := url; req_headers := []; req_body := None |}.

(** What [await response.json()] does: it rejects with an error, or
    yields an object. *)
Inductive json_result :=
| JsonReject (error_message : string)
| JsonValue (o : Js.Object).

Record response := {
  ok : bool;
  http_status : nat;
  content_type : option string;    (* [headers.get('content-type')] *)
  json : json_result
}.

(** What [await fetch(...)] does: it rejects (a network error), or
    yields a response. *)
Inductive fetch_result :=
| Rejected (error_message : string)
| Resolved (r : response).

(** ** View model renderer *)

(** The non-ASCII string literals of the script, byte for byte as they
    stand in the source file. *)
Definition mark_check : string := bytes [226; 128; 154; 195; 186; 195; 172].
Definition mark_cross : string := bytes [226; 128; 154; 195; 186; 195; 179].
Definition mark_warning : string :=
  bytes [226; 128; 154; 195; 182; 226; 128; 160; 195; 148; 226; 136; 143; 195; 168].
Definition icon_commercial : string :=
  bytes [239; 163; 191; 195; 188; 195; 168; 194; 162].
Definition icon_residential : string :=
  bytes [239; 163; 191; 195; 188; 195; 168; 226; 128; 160].
Definition icon_robot : string :=
  bytes [239; 163; 191; 195; 188; 194; 167; 195; 177].
Definition icon_red : string :=
  bytes [239; 163; 191; 195; 188; 195; 174; 194; 165].
Definition icon_yellow : string :=
  bytes [239; 163; 191; 195; 188; 195; 188; 194; 176].
Definition icon_green : string :=
  bytes [239; 163; 191; 195; 188; 195; 188; 194; 162].

(** [countries.join(', ') || 'N/A'] *)
Definition countries_html (countries : list string) : string :=
  let joined := join ", " countries in
  if truthy joined then joined else "N/A".

(** The template assigned to [summaryDiv.innerHTML]. *)
Definition summary_html (r : Summary) : string :=
    cat [nl; "        <p><strong>Nature:</strong> "; nature r; "</p>"; nl;
         "        <p><strong>Products/Services:</strong> ";
         products_services r; "</p>"; nl;
         "        <p><strong>Countries Operating:</strong> ";
         countries_html (countries_operating r); "</p>"; nl;
         "        <p><strong>Countries Dealing With:</strong> ";
         countries_html (countries_dealing_with r); "</p>"; nl; "    "].

Definition evidence_item_html (idx : nat) (snippet : string) : string :=
    cat [nl; "                            <div class="; dq;
         "evidence-item"; dq; ">"; nl;
         "                                <span class="; dq;
         "evidence-number"; dq; ">"; pretty (idx + 1)%nat; ".</span>"; nl;
         "                                <span class="; dq;
         "evidence-text"; dq; ">"; dq; "..."; snippet; "..."; dq;
         "</span>"; nl; "                            </div>"; nl;
         "                        "].

(** [renderFlagItem(title, flag)] *)
Definition renderFlagItem (title : string) (flag : Flag) : string :=
  let isFlagged := flags_raised flag in
  let riskLevel : string := or_else (risk_level flag) "NONE" in
  let riskScore : Z := default 0%Z (risk_score flag) in
  let riskExplanation := or_else (risk_explanation flag) "" in
  let riskClass :=
    if String.eqb riskLevel "HIGH" then "risk-high"
    else if String.eqb riskLevel "MEDIUM" then "risk-medium"
    else if String.eqb riskLevel "LOW" then "risk-low" else "risk-none" in
  let riskIcon :=
    if String.eqb riskLevel "HIGH" then icon_red
    else if String.eqb riskLevel "MEDIUM" then icon_yellow
    else if String.eqb riskLevel "LOW" then icon_green else mark_check in
  let explanation_html :=
    if truthy riskExplanation then
        cat ["<p class="; dq; "risk-explanation"; dq; "><em>";
             riskExplanation; "</em></p>"]
    else "" in
  let risk_html :=
    if negb (String.eqb riskLevel "NONE") then
        cat [nl; "                <div class="; dq; "risk-indicator ";
             riskClass; dq; ">"; nl; "                    <span class=";
             dq; "risk-icon"; dq; ">"; riskIcon; "</span>"; nl;
             "                    <span class="; dq; "risk-level"; dq;
             ">Risk: "; riskLevel; "</span>"; nl;
             "                    <span class="; dq; "risk-score"; dq;
             ">Score: "; pretty riskScore; "/100</span>"; nl;
             "                </div>"; nl; "                ";
             explanation_html; nl; "            "]
    else "" in
  let matches_html :=
    match matches flag with
    | Some ms =>
        if bool_decide (0 < length ms)%nat then
        cat [nl; "                <p><strong>Matches:</strong> ";
             join ", " ms; "</p>"; nl; "            "]
        else ""
    | None => ""
    end in
  let evidence_html :=
    match evidence flag with
    | Some ev =>
        if bool_decide (0 < length ev)%nat then
        cat [nl; "                <details class="; dq; "evidence-details";
             dq; ">"; nl;
             "                    <summary><strong>Evidence (";
             pretty (length ev); " snippet";
             (if bool_decide (1 < length ev)%nat then "s" else "");
             ")</strong></summary>"; nl; "                    <div class=";
             dq; "evidence-list"; dq; ">"; nl; "                        ";
             join "" (imap evidence_item_html ev); nl;
             "                    </div>"; nl;
             "                </details>"; nl; "            "]
        else ""
    | None => ""
    end in
    cat [nl; "        <div class="; dq; "flag-item ";
         (if isFlagged then "flag-raised" else "flag-clear"); dq; ">"; nl;
         "            <h4>"; title; " ";
         (if isFlagged then mark_warning +:+ " FLAGGED" else mark_check +:+ " CLEAR");
         "</h4>"; nl; "            "; risk_html; nl; "            ";
         matches_html; nl; "            "; evidence_html; nl;
         "        </div>"; nl; "    "].

(** The template assigned to [flagsDiv.innerHTML]. *)
Definition flags_html (f : Flags) : string :=
    cat [nl; "        "; renderFlagItem "Sanctions Check" (sanctions f);
         nl; "        ";
         renderFlagItem "Military/Weapons Check" (military f); nl;
         "        "; renderFlagItem "Dual-Use Goods Check" (dual_use f);
         nl; "    "].

Definition naics_code_html (code : string) : string :=
    cat ["<span class="; dq; "naics-code"; dq; ">"; code; "</span>"].

(** The template assigned to [naicsDiv.innerHTML]. *)
Definition naics_html (n : NaicsCodes) : string :=
    cat [nl; "        <p><strong>Primary Code:</strong> <span class="; dq;
         "naics-code naics-primary"; dq; ">"; primary_code n;
         "</span></p>"; nl; "        <p><strong>All Codes:</strong></p>";
         nl; "        <div class="; dq; "naics-codes"; dq; ">"; nl;
         "            "; join "" (map naics_code_html (naics_all_codes n));
         nl; "        </div>"; nl; "        <p style="; dq;
         "margin-top: 15px;"; dq; "><strong>Explanation:</strong> ";
         explanation n; "</p>"; nl; "    "].

Definition address_type_html (type : string) : string :=
    cat ["<span style="; dq;
         "background: #e3f2fd; padding: 4px 8px; border-radius: 4px; ";
         "font-size: 0.85em;"; dq; ">"; type; "</span>"].

(** What [displayResults] assigns to [addressDiv.innerHTML]. *)
Definition address_html (a : Address) : string :=
  match address_text a with
  | Some addr =>
      if truthy addr then
        let v := validation a in
        let plausibilityNote := or_else (plausibility_note v) "" in
        let addressTypes := default [] (address_types v) in
        let typesDisplay :=
          if bool_decide (0 < length addressTypes)%nat then
      cat [nl; "                <div style="; dq; "margin-top: 10px;"; dq;
           ">"; nl; "                    <strong>Location Types:</strong>";
           nl; "                    <div style="; dq;
           "display: flex; flex-wrap: wrap; gap: 5px; margin-top: 5px;";
           dq; ">"; nl; "                        ";
           join "" (map address_type_html addressTypes); nl;
           "                    </div>"; nl; "                </div>"; nl;
           "            "]
          else "" in
        let commercialBadge :=
          match is_commercial v with
          | Some isCommercial =>
              let badgeText :=
                if isCommercial
                then icon_commercial +:+ " COMMERCIAL/INDUSTRIAL"
                else icon_residential +:+ " RESIDENTIAL" in
        cat [nl; "                <div style="; dq;
             "margin: 10px 0; padding: 10px; background: ";
             (if isCommercial then "#e8f5e9" else "#fff3e0");
             "; border-left: 4px solid ";
             (if isCommercial then "#4caf50" else "#ff9800");
             "; border-radius: 4px;"; dq; ">"; nl;
             "                    <strong style="; dq; "color: ";
             (if isCommercial then "#2e7d32" else "#e65100"); ";"; dq; ">";
             nl; "                        "; badgeText; nl;
             "                    </strong>"; nl; "                </div>";
             nl; "            "]
          | None => ""
          end in
        let note_html :=
          if truthy plausibilityNote then
        cat ["<p style="; dq;
             "margin-top: 10px; padding: 8px; background: #f5f5f5; ";
             "border-radius: 4px;"; dq; "><strong>Analysis:</strong> ";
             plausibilityNote; "</p>"]
          else "" in
        let image_html :=
          match image_path v with
          | Some p =>
              if truthy p then
        cat [nl; "                <img src="; dq; "/"; p; dq; " alt="; dq;
             "Address"; dq; " class="; dq; "address-image"; dq; " style=";
             dq; "margin-top: 10px;"; dq; ">"; nl; "            "]
              else ""
          | None => ""
          end in
      cat [nl; "            <p><strong>Address:</strong> "; addr; "</p>";
           nl; "            <p><strong>Validation Status:</strong> "; nl;
           "                <span style="; dq; "color: ";
           (if valid v then "#4caf50" else "#f44336");
           "; font-weight: bold;"; dq; ">"; nl; "                    ";
           (if valid v then mark_check +:+ " Verified" else mark_cross +:+ " Not Verified");
           nl; "                </span>"; nl; "            </p>"; nl;
           "            "; commercialBadge; nl; "            "; note_html;
           nl; "            "; typesDisplay; nl; "            ";
           image_html; nl; "            <div style="; dq;
           "margin-top: 15px; padding: 10px; background: #e3f2fd; ";
           "border-left: 4px solid #2196f3; border-radius: 4px; ";
           "font-size: 0.9em;"; dq; ">"; nl; "                <strong>";
           icon_robot;
           " AI Analysis:</strong> This classification uses AI-powered ";
           "address analysis. For production use with real-time ";
           "geospatial data and enhanced accuracy, enable Google Places ";
           "API with a paid plan."; nl; "            </div>"; nl;
           "        "]
      else "<p>No address found on website.</p>"
  | None => "<p>No address found on website.</p>"
  end.

(** [${reg.f ? `<p><strong>Label:</strong> ${reg.f}</p>` : ''}] *)
Definition registration_line (label : string) (v : option string) : string :=
  match v with
  | Some s => if truthy s then cat [label; s; "</p>"] else ""
  | None => ""
  end.

(** [Object.values(reg).some(v => v)] *)
Definition some_value (reg : CompanyRegistration) : bool :=
  truthy_opt (company_number reg) || truthy_opt (vat_number reg) ||
  truthy_opt (eori_number reg) || truthy_opt (company_name reg) ||
  truthy_opt (established_date reg) || truthy_opt (country_of_registration reg).

(** What [displayResults] assigns to [companyRegDiv.innerHTML]. *)
Definition company_registration_html (c : option CompanyRegistration) : string :=
  match c with
  | Some reg =>
      if some_value reg then
      cat [nl; "                ";
           registration_line "<p><strong>Company Number:</strong> " (company_number reg);
           nl; "                ";
           registration_line "<p><strong>VAT Number:</strong> " (vat_number reg);
           nl; "                ";
           registration_line "<p><strong>EORI Number:</strong> " (eori_number reg);
           nl; "                ";
           registration_line "<p><strong>Company Name:</strong> " (company_name reg);
           nl; "                ";
           registration_line "<p><strong>Established:</strong> " (established_date reg);
           nl; "                ";
           registration_line "<p><strong>Country of Registration:</strong> " (country_of_registration reg);
           nl; "            "]
      else "<p>No company registration details found.</p>"
  | None => "<p>No company registration details found.</p>"
  end.

(** One row of the history table; [createdDate] is
    [new Date(item.created_at).toLocaleString()]. *)
Definition history_row_html (createdDate : string) (item : HistoryItem) : string :=
  let button_html :=
    if String.eqb (item_status item) "completed" then
      cat [nl; "                        <button class="; dq; "btn-small";
           dq; " onclick="; dq; "viewResults('"; item_job_id item; "')";
           dq; ">View Results</button>"; nl; "                    "]
    else "" in
    cat [nl; "            <tr>"; nl; "                <td>"; item_url item;
         "</td>"; nl; "                <td><span class="; dq;
         "status-badge status-"; item_status item; dq; ">";
         item_status item; "</span></td>"; nl; "                <td>";
         createdDate; "</td>"; nl; "                <td>"; nl;
         "                    "; button_html; nl; "                </td>";
         nl; "            </tr>"; nl; "        "].

(** The class [displayLogs] gives the line of a log entry. *)
Definition log_className (log : string) : string :=
  let className := "log-line" in
  if includes log "[WORKER]" then className +:+ " worker"
  else if includes log "[SCRAPER]" then className +:+ " scraper"
  else if includes log "[EXTRACTOR]" then className +:+ " extractor"
  else if includes log mark_cross || includes log "ERROR" || includes log "Error"
       then className +:+ " error"
  else if includes log mark_check || includes log "completed"
       then className +:+ " success"
  else className.

(** [escapeHtml(text)] *)
Definition escapeHtml (text : string) : string := escape_text (codes text).

Definition log_line_html (log : string) : string :=
  cat ["<div class="; dq; log_className log; dq; ">"; escapeHtml log; "</div>"].

(** The text [displayLogs] assigns to [container.innerHTML]. *)
Definition logs_html (logs : list string) : string :=
  join "" (map log_line_html logs).

(** ** The page and the script's variables *)

(** What the script takes from the browser: [window.API_BASE_URL], and
    [new Date(t).toLocaleString()], which depends on the locale. *)
Record Browser := {
  API_BASE_URL : option string;
  toLocaleString : string -> string
}.

(** [const API_BASE = window.API_BASE_URL || '/api'] *)
Definition API_BASE (b : Browser) : string := or_else (API_BASE_URL b) "/api".

Record Form := {
  urlInput_value : string;
  submitBtn_disabled : bool;
  submitBtn_textContent : string
}.

Record StatusView := {
  statusSection_display : string;
  progressFill_width : string;
  progressFill_loading_animation : bool;   (* the class is in [classList] *)
  statusMessage_textContent : string;
  statusDetails_textContent : string
}.

Record ErrorView := {
  errorSection_display : string;
  error_message_textContent : string
}.

Record ResultsView := {
  resultsSection_display : string;
  business_summary : string;
  flags_display : string;
  naics_display : string;
  address_display : string;
  company_registration_display : option string   (* [None]: no such element *)
}.

Record LogsView := {
  logs_section_display : option string;          (* [None]: no such element *)
  logs_container : option string                 (* [None]: no such element *)
}.

(** The function an interval timer runs, with the [jobId] it closes
    over ([data.job_id], which may be missing). *)
Inductive callback :=
| StatusTick (jobId : option string)
| LogsTick (jobId : option string).

(** An [async] function suspended at a [fetch]. *)
Inductive continuation :=
| AwaitAnalyze                             (* [handleFormSubmit] *)
| AwaitStatus (jobId : option string)      (* the status tick *)
| AwaitResults (jobId : option string)     (* [loadResults] *)
| AwaitLogs (jobId : option string)        (* the logs tick, at [/logs] *)
| AwaitLogsStatus (jobId : option string)  (* the logs tick, at [/status] *)
| AwaitHistory.                            (* [loadHistory] *)

Record State := {
  browser : Browser;  (* what the browser provides *)
  listening : bool;  (* the listeners of [DOMContentLoaded] are registered *)
  form : Form;
  statusView : StatusView;
  errorView : ErrorView;
  resultsView : ResultsView;
  logsView : LogsView;
  history_tbody : string;  (* [#history-tbody.innerHTML] *)
  currentJobId : option string;  (* [let currentJobId] *)
  statusPollInterval : option nat;  (* [let statusPollInterval] *)
  logsPollInterval : option nat;  (* [let logsPollInterval] *)
  timers : gmap nat callback;  (* the active interval timers, by handle *)
  next_timer : nat;  (* the handle the next [setInterval] returns *)
  fetches : list request;  (* every request issued so far, oldest first *)
  pending : gmap nat continuation  (* the requests in flight, by position in [fetches] *)
}.

Definition set_listening (v : bool) (s : State) : State :=
  {| browser := browser s; listening := v; form := form s;
     statusView := statusView s; errorView := errorView s;
     resultsView := resultsView s; logsView := logsView s;
     history_tbody := history_tbody s; currentJobId := currentJobId s;
     statusPollInterval := statusPollInterval s;
     logsPollInterval := logsPollInterval s; timers := timers s;
     next_timer := next_timer s; fetches := fetches s;
     pending := pending s |}.

Definition set_form (v : Form) (s : State) : State :=
  {| browser := browser s; listening := listening s; form := v;
     statusView := statusView s; errorView := errorView s;
     resultsView := resultsView s; logsView := logsView s;
     history_tbody := history_tbody s; currentJobId := currentJobId s;
     statusPollInterval := statusPollInterval s;
     logsPollInterval := logsPollInterval s; timers := timers s;
     next_timer := next_timer s; fetches := fetches s;
     pending := pending s |}.

Definition set_statusView (v : StatusView) (s : State) : State :=
  {| browser := browser s; listening := listening s; form := form s;
     statusView := v; errorView := errorView s; resultsView := resultsView s;
     logsView := logsView s; history_tbody := history_tbody s;
     currentJobId := currentJobId s;
     statusPollInterval := statusPollInterval s;
     logsPollInterval := logsPollInterval s; timers := timers s;
     next_timer := next_timer s; fetches := fetches s;
     pending := pending s |}.

Definition set_errorView (v : ErrorView) (s : State) : State :=
  {| browser := browser s; listening := listening s; form := form s;
     statusView := statusView s; errorView := v;
     resultsView := resultsView s; logsView := logsView s;
     history_tbody := history_tbody s; currentJobId := currentJobId s;
     statusPollInterval := statusPollInterval s;
     logsPollInterval := logsPollInterval s; timers := timers s;
     next_timer := next_timer s; fetches := fetches s;
     pending := pending s |}.

Definition set_resultsView (v : ResultsView) (s : State) : State :=
  {| browser := browser s; listening := listening s; form := form s;
     statusView := statusView s; errorView := errorView s; resultsView := v;
     logsView := logsView s; history_tbody := history_tbody s;
     currentJobId := currentJobId s;
     statusPollInterval := statusPollInterval s;
     logsPollInterval := logsPollInterval s; timers := timers s;
     next_timer := next_timer s; fetches := fetches s;
     pending := pending s |}.

Definition set_logsView (v : LogsView) (s : State) : State :=
  {| browser := browser s; listening := listening s; form := form s;
     statusView := statusView s; errorView := errorView s;
     resultsView := resultsView s; logsView := v;
     history_tbody := history_tbody s; currentJobId := currentJobId s;
     statusPollInterval := statusPollInterval s;
     logsPollInterval := logsPollInterval s; timers := timers s;
     next_timer := next_timer s; fetches := fetches s;
     pending := pending s |}.

Definition set_history_tbody (v : string) (s : State) : State :=
  {| browser := browser s; listening := listening s; form := form s;
     statusView := statusView s; errorView := errorView s;
     resultsView := resultsView s; logsView := logsView s;
     history_tbody := v; currentJobId := currentJobId s;
     statusPollInterval := statusPollInterval s;
     logsPollInterval := logsPollInterval s; timers := timers s;
     next_timer := next_timer s; fetches := fetches s;
     pending := pending s |}.

Definition set_currentJobId (v : option string) (s : State) : State :=
  {| browser := browser s; listening := listening s; form := form s;
     statusView := statusView s; errorView := errorView s;
     resultsView := resultsView s; logsView := logsView s;
     history_tbody := history_tbody s; currentJobId := v;
     statusPollInterval := statusPollInterval s;
     logsPollInterval := logsPollInterval s; timers := timers s;
     next_timer := next_timer s; fetches := fetches s;
     pending := pending s |}.

Definition set_statusPollInterval (v : option nat) (s : State) : State :=
  {| browser := browser s; listening := listening s; form := form s;
     statusView := statusView s; errorView := errorView s;
     resultsView := resultsView s; logsView := logsView s;
     history_tbody := history_tbody s; currentJobId := currentJobId s;
     statusPollInterval := v; logsPollInterval := logsPollInterval s;
     timers := timers s; next_timer := next_timer s; fetches := fetches s;
     pending := pending s |}.

Definition set_logsPollInterval (v : option nat) (s : State) : State :=
  {| browser := browser s; listening := listening s; form := form s;
     statusView := statusView s; errorView := errorView s;
     resultsView := resultsView s; logsView := logsView s;
     history_tbody := history_tbody s; currentJobId := currentJobId s;
     statusPollInterval := statusPollInterval s; logsPollInterval := v;
     timers := timers s; next_timer := next_timer s; fetches := fetches s;
     pending := pending s |}.

Definition set_timers (v : gmap nat callback) (s : State) : State :=
  {| browser := browser s; listening := listening s; form := form s;
     statusView := statusView s; errorView := errorView s;
     resultsView := resultsView s; logsView := logsView s;
     history_tbody := history_tbody s; currentJobId := currentJobId s;
     statusPollInterval := statusPollInterval s;
     logsPollInterval := logsPollInterval s; timers := v;
     next_timer := next_timer s; fetches := fetches s;
     pending := pending s |}.

Definition set_next_timer (v : nat) (s : State) : State :=
  {| browser := browser s; listening := listening s; form := form s;
     statusView := statusView s; errorView := errorView s;
     resultsView := resultsView s; logsView := logsView s;
     history_tbody := history_tbody s; currentJobId := currentJobId s;
     statusPollInterval := statusPollInterval s;
     logsPollInterval := logsPollInterval s; timers := timers s;
     next_timer := v; fetches := fetches s; pending := pending s |}.

Definition set_fetches (v : list request) (s : State) : State :=
  {| browser := browser s; listening := listening s; form := form s;
     statusView := statusView s; errorView := errorView s;
     resultsView := resultsView s; logsView := logsView s;
     history_tbody := history_tbody s; currentJobId := currentJobId s;
     statusPollInterval := statusPollInterval s;
     logsPollInterval := logsPollInterval s; timers := timers s;
     next_timer := next_timer s; fetches := v; pending := pending s |}.

Definition set_pending (v : gmap nat continuation) (s : State) : State :=
  {| browser := browser s; listening := listening s; form := form s;
     statusView := statusView s; errorView := errorView s;
     resultsView := resultsView s; logsView := logsView s;
     history_tbody := history_tbody s; currentJobId := currentJobId s;
     statusPollInterval := statusPollInterval s;
     logsPollInterval := logsPollInterval s; timers := timers s;
     next_timer := next_timer s; fetches := fetches s; pending := v |}.

(** ** Timers and requests *)

(** A handle is truthy unless it is [null] or [0]. *)
Definition truthy_handle (v : option nat) : bool :=
  match v with Some h => negb (h =? 0)%nat | None => false end.

Definition clearInterval (v : option nat) (s : State) : State :=
  match v with
  | Some h => set_timers (delete h (timers s)) s
  | None => s
  end.

Definition setInterval (f : callback) (s : State) : nat * State :=
  let h := next_timer s in
  (h, set_next_timer (S h) (set_timers (<[h := f]> (timers s)) s)).

(** [fetch(req)], awaited by [k]. *)
Definition fetch (req : request) (k : continuation) (s : State) : State :=
  set_pending (<[length (fetches s) := k]> (pending s))
    (set_fetches (fetches s ++ [req]) s).

Definition status_url (s : State) (jobId : option string) : string :=
  cat [API_BASE (browser s); "/status/"; to_string jobId].

Definition results_url (s : State) (jobId : option string) : string :=
  cat [API_BASE (browser s); "/results/"; to_string jobId].

Definition logs_url (s : State) (jobId : option string) : string :=
  cat [API_BASE (browser s); "/logs/"; to_string jobId].

Definition analyze_request (s : State) (url : string) : request :=
  {| req_method := "POST";
     req_url := cat [API_BASE (browser s); "/analyze"];
     req_headers := [("Content-Type", "application/json")];
     req_body := Some (cat ["{"; dq; "url"; dq; ":"; stringify_string url; "}"]) |}.

Definition json_content_type (r : response) : bool :=
  match content_type r with
  | Some contentType => truthy contentType && includes contentType "application/json"
  | None => false
  end.

(** ** Show/hide sections *)

Definition showStatus (s : State) : State :=
  let v := statusView s in
  set_statusView
    {| statusSection_display := "block";
       progressFill_width := progressFill_width v;
       progressFill_loading_animation := progressFill_loading_animation v;
       statusMessage_textContent := statusMessage_textContent v;
       statusDetails_textContent := statusDetails_textContent v |} s.

Definition hideStatus (s : State) : State :=
  let v := statusView s in
  set_statusView
    {| statusSection_display := "none";
       progressFill_width := progressFill_width v;
       progressFill_loading_animation := progressFill_loading_animation v;
       statusMessage_textContent := statusMessage_textContent v;
       statusDetails_textContent := statusDetails_textContent v |} s.

Definition set_resultsSection_display (d : string) (s : State) : State :=
  let v := resultsView s in
  set_resultsView
    {| resultsSection_display := d;
       business_summary := business_summary v;
       flags_display := flags_display v;
       naics_display := naics_display v;
       address_display := address_display v;
       company_registration_display := company_registration_display v |} s.

Definition showResults (s : State) : State := set_resultsSection_display "block" s.

Definition hideResults (s : State) : State := set_resultsSection_display "none" s.

Definition showError (message : string) (s : State) : State :=
  set_errorView
    {| errorSection_display := "block"; error_message_textContent := message |} s.

Definition hideError (s : State) : State :=
  set_errorView
    {| errorSection_display := "none";
       error_message_textContent := error_message_textContent (errorView s) |} s.

(** ** Status display *)

Definition updateStatusDisplay (status : Js.Object) (s : State) : State :=
  let progress : Z := default 0%Z (Js.progress status) in
  set_statusView
    {| statusSection_display := statusSection_display (statusView s);
       progressFill_width :=
         if (progress <? 5)%Z then "100%" else pretty progress +:+ "%";
       progressFill_loading_animation :=
         if (progress <? 5)%Z then true else false;
       statusMessage_textContent :=
         or_else (Js.message status) ("Status: " +:+ to_string (Js.status status));
       statusDetails_textContent :=
         if (0 <? progress)%Z then cat ["Progress: "; pretty progress; "%"]
         else "Processing..." |} s.

(** ** Results *)

Definition displayResults (result : Result) (s : State) : State :=
  set_resultsView
    {| resultsSection_display := resultsSection_display (resultsView s);
       business_summary := summary_html (summary result);
       flags_display := flags_html (flags result);
       naics_display := naics_html (naics_codes result);
       address_display := address_html (address result);
       company_registration_display :=
         match company_registration_display (resultsView s) with
         | Some _ => Some (company_registration_html (company_registration result))
         | None => None
         end |} s.

(** [loadResults(jobId)] up to its [fetch]. *)
Definition loadResults (jobId : option string) (s : State) : State :=
  fetch (GET (results_url s jobId)) (AwaitResults jobId) s.

(** [loadResults] from the response on. *)
Definition loadResults_resume (r : fetch_result) (s : State) : State :=
  match r with
  | Rejected error_message =>
      showError ("Error loading results: " +:+ error_message) s
  | Resolved response =>
      if negb (ok response) then
        showError ("Error loading results: " +:+ "Failed to get results") s
      else
        match json response with
        | JsonReject error_message =>
            showError ("Error loading results: " +:+ error_message) s
        | JsonValue data =>
            if truthy_opt (Js.error data) then showError (to_string (Js.error data)) s
            else
              match Js.result data with
              | Some result => showResults (hideStatus (displayResults result s))
              | None => s
              end
        end
  end.

(** [viewResults(jobId)] up to the [fetch] of [loadResults]. *)
Definition viewResults (jobId : string) (s : State) : State :=
  loadResults (Some jobId) (set_currentJobId (Some jobId) s).

(** ** History *)

Definition displayHistory (items : list HistoryItem) (s : State) : State :=
  if bool_decide (length items = 0) then
    set_history_tbody
      (cat ["<tr><td colspan="; dq; "4"; dq; " style="; dq; "text-align: center;"; dq;
            ">No analysis history</td></tr>"]) s
  else
    set_history_tbody
      (join ""
         (map (fun item =>
                 history_row_html (toLocaleString (browser s) (item_created_at item)) item)
              items)) s.

Definition loadHistory (s : State) : State :=
  fetch (GET (cat [API_BASE (browser s); "/history?limit=20"])) AwaitHistory s.

Definition loadHistory_resume (r : fetch_result) (s : State) : State :=
  match r with
  | Rejected _ => s
  | Resolved response =>
      if negb (ok response) then s
      else
        match json response with
        | JsonReject _ => s
        | JsonValue data =>
            match Js.items data with
            | Some items => displayHistory items s
            | None => s              (* [items.length] throws, caught *)
            end
        end
  end.

(** ** Logs *)

Definition displayLogs (logs : list string) (s : State) : State :=
  match logs_container (logsView s) with
  | None => s
  | Some _ =>
      set_logsView
        {| logs_section_display := logs_section_display (logsView s);
           logs_container := Some (logs_html logs) |} s
  end.

(** [status.status === v] *)
Definition status_is (status : Js.Object) (v : string) : bool :=
  match Js.status status with
  | Some st => String.eqb st v
  | None => false
  end.

(** [status.status === 'completed' || status.status === 'failed'] *)
Definition is_terminal (status : Js.Object) : bool :=
  status_is status "completed" || status_is status "failed".

Definition startLogsPolling (jobId : option string) (s : State) : State :=
  let s :=
    if truthy_handle (logsPollInterval s)
    then clearInterval (logsPollInterval s) s else s in
  let s :=
    match logs_section_display (logsView s) with
    | Some _ =>
        set_logsView
          {| logs_section_display := Some "block";
             logs_container := logs_container (logsView s) |} s
    | None => s
    end in
  let (h, s) := setInterval (LogsTick jobId) s in
  set_logsPollInterval (Some h) s.

(** The logs tick up to its first [fetch]. *)
Definition logs_tick (jobId : option string) (s : State) : State :=
  fetch (GET (logs_url s jobId)) (AwaitLogs jobId) s.

(** The logs tick from the response of [/logs] to its second [fetch]. *)
Definition logs_tick_resume (jobId : option string) (r : fetch_result) (s : State) : State :=
  match r with
  | Rejected _ => s
  | Resolved response =>
      if negb (ok response) then s
      else if negb (json_content_type response) then s
      else
        match json response with
        | JsonReject _ => s
        | JsonValue data =>
            let s := displayLogs (default [] (Js.logs data)) s in
            fetch (GET (status_url s jobId)) (AwaitLogsStatus jobId) s
        end
  end.

(** The logs tick from the response of [/status] on. *)
Definition logs_tick_status_resume (r : fetch_result) (s : State) : State :=
  match r with
  | Rejected _ => s
  | Resolved statusResponse =>
      if ok statusResponse then
        match json statusResponse with
        | JsonReject _ => s
        | JsonValue status =>
            if is_terminal status
            then set_logsPollInterval None (clearInterval (logsPollInterval s) s)
            else s
        end
      else s
  end.

(** ** Status polling *)

Definition startStatusPolling (jobId : option string) (s : State) : State :=
  let s :=
    if truthy_handle (statusPollInterval s)
    then clearInterval (statusPollInterval s) s else s in
  let (h, s) := setInterval (StatusTick jobId) s in
  set_statusPollInterval (Some h) s.

(** The status tick up to its [fetch]. *)
Definition status_tick (jobId : option string) (s : State) : State :=
  fetch (GET (status_url s jobId)) (AwaitStatus jobId) s.

(** The status tick from the response on.  Every [throw] of the [try]
    block lands in the [catch], which changes nothing. *)
Definition status_tick_resume (jobId : option string) (r : fetch_result) (s : State) : State :=
  match r with
  | Rejected _ => s
  | Resolved response =>
      if negb (ok response) then s
      else if negb (json_content_type response) then s
      else
        match json response with
        | JsonReject _ => s
        | JsonValue status =>
            let s := updateStatusDisplay status s in
            if is_terminal status then
              let s := clearInterval (statusPollInterval s) s in
              let s := set_statusPollInterval None s in
              let s :=
                if truthy_handle (logsPollInterval s)
                then set_logsPollInterval None (clearInterval (logsPollInterval s) s)
                else s in
              if status_is status "completed"
              then loadResults jobId s
              else showError "Analysis failed. Please try again." s
            else s
        end
  end.

(** ** Form submission *)

(** [handleFormSubmit] up to its [fetch]. *)
Definition handleFormSubmit (s : State) : State :=
  let url := trim (urlInput_value (form s)) in
  if negb (truthy url) then showError "Please enter a valid URL" s
  else
    let s :=
      set_form
        {| urlInput_value := urlInput_value (form s);
           submitBtn_disabled := true;
           submitBtn_textContent := "Submitting..." |} s in
    let s := hideError s in
    let s := hideResults s in
    let s := showStatus s in
    let s :=
      updateStatusDisplay
        {| Js.job_id := None; Js.status := Some "processing";
           Js.progress := Some 0%Z;
           Js.message := Some "Submitting analysis request...";
           Js.error := None; Js.result := None; Js.logs := None;
           Js.items := None |} s in
    fetch (analyze_request s url) AwaitAnalyze s.

(** The [catch] of [handleFormSubmit]. *)
Definition handleFormSubmit_catch (error_message : string) (s : State) : State :=
  let s := hideStatus s in
  let s := showError ("Error: " +:+ error_message) s in
  set_form
    {| urlInput_value := urlInput_value (form s);
       submitBtn_disabled := false;
       submitBtn_textContent := "Analyze Website" |} s.

(** [handleFormSubmit] from the response on. *)
Definition handleFormSubmit_resume (r : fetch_result) (s : State) : State :=
  match r with
  | Rejected error_message => handleFormSubmit_catch error_message s
  | Resolved response =>
      if negb (ok response) then handleFormSubmit_catch "Failed to submit analysis" s
      else
        match json response with
        | JsonReject error_message => handleFormSubmit_catch error_message s
        | JsonValue data =>
            let s := set_currentJobId (Js.job_id data) s in
            let s := startStatusPolling (Js.job_id data) s in
            let s := startLogsPolling (Js.job_id data) s in
            let s :=
              set_form
                {| urlInput_value := "";
                   submitBtn_disabled := false;
                   submitBtn_textContent := "Analyze Website" |} s in
            loadHistory s
        end
  end.

(** ** The event loop *)

Inductive event :=
| DOMContentLoaded
| Input (value : string)               (* the user edits the URL field *)
| Submit                               (* [submit] on the form *)
| ClickRefreshHistory
| ClickViewResults (jobId : string)    (* a button of the history table *)
| Interval (handle : nat)              (* an interval timer is due *)
| Settle (id : nat) (r : fetch_result). (* a request in flight settles *)

Definition resume (k : continuation) (r : fetch_result) (s : State) : State :=
  match k with
  | AwaitAnalyze => handleFormSubmit_resume r s
  | AwaitStatus jobId => status_tick_resume jobId r s
  | AwaitResults _ => loadResults_resume r s
  | AwaitLogs jobId => logs_tick_resume jobId r s
  | AwaitLogsStatus _ => logs_tick_status_resume r s
  | AwaitHistory => loadHistory_resume r s
  end.

Definition step (ev : event) (s : State) : State :=
  match ev with
  | DOMContentLoaded => set_listening true (loadHistory s)
  | Input value =>
      set_form
        {| urlInput_value := value;
           submitBtn_disabled := submitBtn_disabled (form s);
           submitBtn_textContent := submitBtn_textContent (form s) |} s
  | Submit => if listening s then handleFormSubmit s else s
  | ClickRefreshHistory => if listening s then loadHistory s else s
  | ClickViewResults jobId => viewResults jobId s
  | Interval h =>
      match timers s !! h with
      | Some (StatusTick jobId) => status_tick jobId s
      | Some (LogsTick jobId) => logs_tick jobId s
      | None => s
      end
  | Settle id r =>
      match pending s !! id with
      | Some k => resume k r (set_pending (delete id (pending s)) s)
      | None => s
      end
  end.

Definition run (evs : list event) (s : State) : State :=
  foldl (fun s ev => step ev s) s evs.



(** ** Vocabulary of the specification *)

(** What the page shows, and what the script schedules. *)
Definition page (s : State) :=
  (form s, statusView s, errorView s, resultsView s, logsView s, history_tbody s).

Definition schedule (s : State) :=
  (timers s, next_timer s, statusPollInterval s, logsPollInterval s).

(** A transient error of a polling tick: the fetch fails, the response
    is not 2xx, or it is not JSON (by its content type or its body). *)
Definition transient_error (r : fetch_result) : bool :=
  match r with
  | Rejected _ => true
  | Resolved response =>
      negb (ok response) || negb (json_content_type response) ||
      match json response with JsonReject _ => true | JsonValue _ => false end
  end.

(** The decoded payload of a tick that is not a transient error. *)
Definition payload (r : fetch_result) : option Js.Object :=
  match r with
  | Rejected _ => None
  | Resolved response =>
      if ok response && json_content_type response then
        match json response with JsonReject _ => None | JsonValue o => Some o end
      else None
  end.

(** Terminal status: [completed] or [failed]. *)
Definition terminal (o : Js.Object) : Prop :=
  Js.status o = Some "completed" \/ Js.status o = Some "failed".

(** The event is a status tick observing a terminal status. *)
Inductive observes_terminal (s : State) : event -> Prop :=
| observes_terminal_intro id jobId r o :
    pending s !! id = Some (AwaitStatus jobId) ->
    payload r = Some o ->
    terminal o ->
    observes_terminal s (Settle id r).


(** The submission request failed: a network error or a non-2xx
    response; and the message of the error thrown for it. *)
Definition request_failed (r : fetch_result) : bool :=
  match r with
  | Rejected _ => true
  | Resolved response => negb (ok response)
  end.

Definition failure_message (r : fetch_result) : string :=
  match r with
  | Rejected error_message => error_message
  | Resolved _ => "Failed to submit analysis"
  end.


(** The display categories of a log line, and the rule table of the
    specification: the first rule with a marker occurring in the line
    gives the category, and a line matching no rule is plain. *)
Inductive category := Worker | Scraper | Extractor | Error | Success | Plain.

Definition rules : list (category * list string) :=
  [ (Worker, ["[WORKER]"]);
    (Scraper, ["[SCRAPER]"]);
    (Extractor, ["[EXTRACTOR]"]);
    (Error, [mark_cross; "ERROR"; "Error"]);
    (Success, [mark_check; "completed"]) ].

Definition has_marker (log : string) (markers : list string) : bool :=
  existsb (includes log) markers.

Fixpoint first_match (log : string) (table : list (category * list string)) : category :=
  match table with
  | (c, markers) :: table' =>
      if has_marker log markers then c else first_match log table'
  | [] => Plain
  end.

Definition classify (log : string) : category := first_match log rules.

Definition class_of (c : category) : string :=
  match c with
  | Worker => "log-line worker"
  | Scraper => "log-line scraper"
  | Extractor => "log-line extractor"
  | Error => "log-line error"
  | Success => "log-line success"
  | Plain => "log-line"
  end.

Definition component_tag (c : category) : bool :=
  match c with Worker | Scraper | Extractor => true | _ => false end.

Definition has_component_tag (log : string) : bool :=
  includes log "[WORKER]" || includes log "[SCRAPER]" || includes log "[EXTRACTOR]".

Definition has_error_marker (log : string) : bool :=
  has_marker log [mark_cross; "ERROR"; "Error"].

(** The items of a history response [loadHistory] renders: the response
    is 2xx and its body parses to an object with [items]. *)
Definition history_items (r : fetch_result) : option (list HistoryItem) :=
  match r with
  | Rejected _ => None
  | Resolved response =>
      if ok response then
        match json response with
        | JsonReject _ => None
        | JsonValue data => Js.items data
        end
      else None
  end.

(** The message of the error [loadResults] catches for a failed
    request. *)
Definition results_failure_message (r : fetch_result) : string :=
  match r with
  | Rejected error_message => error_message
  | Resolved _ => "Failed to get results"
  end.

(** A request of the HTTP API: a [GET] below [API_BASE], or the [POST]
    of a submission to [API_BASE/analyze]. *)
Definition api_request (b : Browser) (req : request) : Prop :=
  (req_method req = "GET" /\ req_body req = None /\
   exists path, req_url req = API_BASE b +:+ path) \/
  (req_method req = "POST" /\ req_url req = API_BASE b +:+ "/analyze").

(** The handles the two variables hold. *)
Definition handle_set (v : option nat) : gset nat :=
  match v with Some h => {[h]} | None => ∅ end.

Definition held_handles (s : State) : gset nat :=
  handle_set (statusPollInterval s) ∪ handle_set (logsPollInterval s).

(** Only one-byte white space: TAB, LF, VT, FF, CR, SP. *)
Definition ascii_whitespace_only (text : string) : Prop :=
  Forall (fun a => ws1 a = true) (codes text).

(** [t] occurs in [s] as a substring. *)
Definition occurs_in (t s : string) : Prop :=
  exists a b, s = a +:+ t +:+ b.

(** ** Reachable states *)

(** The page once the script has run and before any event: no timer,
    no request, and timer handles start above zero (the HTML standard
    has [setInterval] return an integer greater than zero). *)
Definition initial (s : State) : Prop :=
  listening s = false /\ currentJobId s = None /\
  statusPollInterval s = None /\ logsPollInterval s = None /\
  timers s = ∅ /\ 0 < next_timer s /\ fetches s = [] /\ pending s = ∅.

Inductive reachable : State -> Prop :=
| reachable_initial s : initial s -> reachable s
| reachable_step ev s : reachable s -> reachable (step ev s).

(** The timers are the ones the two variables hold, each with the
    callback of its poller, and handles are above zero and below the
    next one. *)
Definition schedule_ok (T : gmap nat callback) (n : nat) (sp lp : option nat) : Prop :=
  (forall h f, T !! h = Some f ->
     0 < h < n /\
     ((sp = Some h /\ exists jobId, f = StatusTick jobId) \/
      (lp = Some h /\ exists jobId, f = LogsTick jobId))) /\
  (forall h, sp = Some h -> exists jobId, T !! h = Some (StatusTick jobId)) /\
  (forall h, lp = Some h -> exists jobId, T !! h = Some (LogsTick jobId)).

(** The invariant: the schedule is in order, and the requests in
    flight are requests issued. *)
Definition inv (s : State) : Prop :=
  schedule_ok (timers s) (next_timer s) (statusPollInterval s) (logsPollInterval s) /\
  0 < next_timer s /\
  (forall id, is_Some (pending s !! id) -> id < length (fetches s)).

(** ** Example data *)

Module Example.

Definition browser0 : Browser :=
  {| API_BASE_URL := None; toLocaleString := fun t => t |}.

(** A freshly loaded page. *)
Definition page0 : State :=
  {| browser := browser0;
     listening := false;
     form := {| urlInput_value := ""; submitBtn_disabled := false;
                submitBtn_textContent := "Analyze Website" |};
     statusView := {| statusSection_display := "none";
                      progressFill_width := "0%";
                      progressFill_loading_animation := false;
                      statusMessage_textContent := "";
                      statusDetails_textContent := "" |};
     errorView := {| errorSection_display := "none";
                     error_message_textContent := "" |};
     resultsView := {| resultsSection_display := "none";
                       business_summary := ""; flags_display := "";
                       naics_display := ""; address_display := "";
                       company_registration_display := Some "" |};
     logsView := {| logs_section_display := Some "none";
                    logs_container := Some "" |};
     history_tbody := "";
     currentJobId := None;
     statusPollInterval := None;
     logsPollInterval := None;
     timers := ∅;
     next_timer := 1;
     fetches := [];
     pending := ∅ |}.

Definition ok_json (o : Js.Object) : fetch_result :=
  Resolved {| ok := true; http_status := 200;
              content_type := Some "application/json"; json := JsonValue o |}.

Definition html_page : fetch_result :=
  Resolved {| ok := true; http_status := 200;
              content_type := Some "text/html";
              json := JsonReject "Unexpected token < in JSON at position 0" |}.

Definition server_error : fetch_result :=
  Resolved {| ok := false; http_status := 502;
              content_type := Some "text/html";
              json := JsonReject "Unexpected token < in JSON at position 0" |}.

Definition status_payload (st : string) (p : Z) (m : option string) : Js.Object :=
  {| Js.job_id := None; Js.status := Some st; Js.progress := Some p;
     Js.message := m; Js.error := None; Js.result := None;
     Js.logs := None; Js.items := None |}.

Definition job_payload (id : string) : Js.Object :=
  {| Js.job_id := Some id; Js.status := None; Js.progress := None;
     Js.message := None; Js.error := None; Js.result := None;
     Js.logs := None; Js.items := None |}.


(** The page is loaded and the user has typed a URL. *)
Definition typed : State :=
  run [DOMContentLoaded; Input "https://example.com"] page0.

(** The form is submitted: request 1 is the submission in flight
    (request 0 is the history). *)
Definition submitted : State := step Submit typed.

(** The service answered with job [abc123]: timer 1 polls the status,
    timer 2 the logs (request 2 is the history again). *)
Definition polling : State :=
  step (Settle 1 (ok_json (job_payload "abc123"))) submitted.

(** The status timer is due: request 3 is its status request. *)
Definition ticking : State := step (Interval 1) polling.


(** The status tick has seen [completed]: request 4 is the results
    request. *)
Definition loading : State :=
  step (Settle 3 (ok_json (status_payload "completed" 100 None))) ticking.

(** The log timer is due: request 3 is its logs request. *)
Definition logging : State := step (Interval 2) polling.

Definition sample_flag : Flag :=
  {| flags_raised := true; risk_level := Some "HIGH"; risk_score := Some 80%Z;
     risk_explanation := Some "listed entity";
     matches := Some ["ACME Ltd"; "ACME GmbH"];
     evidence := Some ["sanctioned in 2020"; "subsidiary of ACME"; "export ban"] |}.

Definition clear_flag : Flag :=
  {| flags_raised := false; risk_level := None; risk_score := None;
     risk_explanation := None; matches := None; evidence := None |}.

Definition sample_result : Result :=
  {| summary := {| nature := "Retail"; products_services := "Shoes";
                   countries_operating := ["GB"; "FR"];
                   countries_dealing_with := [] |};
     flags := {| sanctions := sample_flag; military := clear_flag;
                 dual_use := clear_flag |};
     naics_codes := {| primary_code := "448210"; naics_all_codes := ["448210"];
                       explanation := "Shoe stores" |};
     address := {| address_text := Some "1 High Street";
                   validation := {| valid := true; is_commercial := None;
                                    plausibility_note := None;
                                    address_types := None;
                                    image_path := None |} |};
     company_registration := None |}.

Definition result_payload (e : option string) (r : option Result) : Js.Object :=
  {| Js.job_id := None; Js.status := None; Js.progress := None;
     Js.message := None; Js.error := e; Js.result := r;
     Js.logs := None; Js.items := None |}.

Definition completed_item : HistoryItem :=
  {| item_url := "https://example.com"; item_status := "completed";
     item_created_at := "2025-01-01T10:00:00Z"; item_job_id := "abc123" |}.

End Example.

(** * Properties *)

(** ** The invariant of the schedule *)

Lemma schedule_ok_clear_status T n sp lp :
  schedule_ok T n sp lp ->
  schedule_ok (from_option (fun h => delete h T) T sp) n None lp.
Proof.
  intros (Ht & Hs & Hl). destruct sp as [h0|]; simpl.
  - split; [|split].
    + intros h f Hf. apply lookup_delete_Some in Hf as [Hne Hf].
      destruct (Ht h f Hf) as [Hh [[[= ->] _]|Hlp]]; [done|]. by split; [|right].
    + done.
    + intros h ->. destruct (Hl h eq_refl) as [j Hj]. exists j.
      destruct (Hs h0 eq_refl) as [j0 Hj0].
      rewrite lookup_delete_ne; [done|]. intros ->. congruence.
  - split; [|split]; [|done|done].
    intros h f Hf. destruct (Ht h f Hf) as [Hh [[[=] _]|Hlp]]. by split; [|right].
Qed.

Lemma schedule_ok_clear_logs T n sp lp :
  schedule_ok T n sp lp ->
  schedule_ok (from_option (fun h => delete h T) T lp) n sp None.
Proof.
  intros (Ht & Hs & Hl). destruct lp as [h0|]; simpl.
  - split; [|split].
    + intros h f Hf. apply lookup_delete_Some in Hf as [Hne Hf].
      destruct (Ht h f Hf) as [Hh [Hsp|[[= ->] _]]]; [|done]. by split; [|left].
    + intros h ->. destruct (Hs h eq_refl) as [j Hj]. exists j.
      destruct (Hl h0 eq_refl) as [j0 Hj0].
      rewrite lookup_delete_ne; [done|]. intros ->. congruence.
    + done.
  - split; [|split]; [|done|done].
    intros h f Hf. destruct (Ht h f Hf) as [Hh [Hsp|[[=] _]]]. by split; [|left].
Qed.

Lemma schedule_ok_start_status T n lp jobId :
  0 < n -> schedule_ok T n None lp ->
  schedule_ok (<[n := StatusTick jobId]> T) (S n) (Some n) lp.
Proof.
  intros Hn (Ht & _ & Hl). split; [|split].
  - intros h f Hf. apply lookup_insert_Some in Hf as [[<- <-]|[Hne Hf]].
    + split; [lia|]. left. eauto.
    + destruct (Ht h f Hf) as [Hh [[[=] _]|Hlp]]. split; [lia|by right].
  - intros h [= <-]. exists jobId. apply lookup_insert_eq.
  - intros h ->. destruct (Hl h eq_refl) as [j Hj]. exists j.
    destruct (Ht _ _ Hj) as [Hh _]. rewrite lookup_insert_ne; [done|lia].
Qed.

Lemma schedule_ok_start_logs T n sp jobId :
  0 < n -> schedule_ok T n sp None ->
  schedule_ok (<[n := LogsTick jobId]> T) (S n) sp (Some n).
Proof.
  intros Hn (Ht & Hs & _). split; [|split].
  - intros h f Hf. apply lookup_insert_Some in Hf as [[<- <-]|[Hne Hf]].
    + split; [lia|]. right. eauto.
    + destruct (Ht h f Hf) as [Hh [Hsp|[[=] _]]]. split; [lia|by left].
  - intros h ->. destruct (Hs h eq_refl) as [j Hj]. exists j.
    destruct (Ht _ _ Hj) as [Hh _]. rewrite lookup_insert_ne; [done|lia].
  - intros h [= <-]. exists jobId. apply lookup_insert_eq.
Qed.

(** Handles held by the variables are truthy. *)
Lemma schedule_ok_truthy_status T n sp lp :
  schedule_ok T n sp lp -> truthy_handle sp = bool_decide (is_Some sp).
Proof.
  intros (Ht & Hs & _). destruct sp as [h|]; [|done].
  destruct (Hs h eq_refl) as [j Hj]. apply Ht in Hj as [Hh _].
  destruct h; [lia|done].
Qed.

Lemma schedule_ok_truthy_logs T n sp lp :
  schedule_ok T n sp lp -> truthy_handle lp = bool_decide (is_Some lp).
Proof.
  intros (Ht & _ & Hl). destruct lp as [h|]; [|done].
  destruct (Hl h eq_refl) as [j Hj]. apply Ht in Hj as [Hh _].
  destruct h; [lia|done].
Qed.

(** Once both variables are cleared no timer is left. *)
Lemma schedule_ok_none T n : schedule_ok T n None None -> T = ∅.
Proof.
  intros (Ht & _). apply map_empty. intros h.
  destruct (T !! h) as [f|] eqn:Hf; [|done].
  destruct (Ht h f Hf) as [_ [[[=] _]|[[=] _]]].
Qed.

Lemma schedule_ok_next_positive T n sp lp :
  schedule_ok T n sp lp -> is_Some sp \/ is_Some lp -> 0 < n.
Proof.
  intros (Ht & Hs & Hl) [[h ->]|[h ->]].
  - destruct (Hs h eq_refl) as [j Hj]. apply Ht in Hj. lia.
  - destruct (Hl h eq_refl) as [j Hj]. apply Ht in Hj. lia.
Qed.

(** What each function does to the schedule and to the requests. *)

Lemma inv_ext (s s' : State) :
  schedule s' = schedule s -> pending s' = pending s -> fetches s' = fetches s ->
  inv s -> inv s'.
Proof.
  unfold schedule, inv. intros [= -> -> -> ->] -> ->. done.
Qed.

Lemma schedule_eq (s : State) T n sp lp :
  schedule s = (T, n, sp, lp) ->
  timers s = T /\ next_timer s = n /\ statusPollInterval s = sp /\ logsPollInterval s = lp.
Proof. unfold schedule. by intros [= -> -> -> ->]. Qed.

Lemma inv_of_schedule (s : State) T n sp lp :
  schedule s = (T, n, sp, lp) -> schedule_ok T n sp lp -> 0 < n ->
  (forall id, is_Some (pending s !! id) -> id < length (fetches s)) ->
  inv s.
Proof. unfold schedule. intros [= <- <- <- <-]. done. Qed.

Lemma inv_fetch (req : request) (k : continuation) (s : State) :
  inv s -> inv (fetch req k s).
Proof.
  intros (Hs & Hn & Hp). split; [done|]. split; [done|].
  simpl. intros id Hid. rewrite length_app. simpl.
  destruct (decide (id = length (fetches s))) as [->|Hne]; [lia|].
  rewrite lookup_insert_ne in Hid by done. apply Hp in Hid. lia.
Qed.

Lemma inv_settled (id : nat) (s : State) :
  inv s -> inv (set_pending (delete id (pending s)) s).
Proof.
  intros (Hs & Hn & Hp). split; [done|]. split; [done|].
  simpl. intros i [k Hi]. apply Hp.
  apply lookup_delete_Some in Hi as [_ Hi]. by exists k.
Qed.

Lemma startStatusPolling_schedule (jobId : option string) (s : State) :
  inv s ->
  schedule (startStatusPolling jobId s) =
    (<[next_timer s := StatusTick jobId]>
       (from_option (fun h => delete h (timers s)) (timers s) (statusPollInterval s)),
     S (next_timer s), Some (next_timer s), logsPollInterval s).
Proof.
  intros (Hs & _). unfold startStatusPolling.
  rewrite (schedule_ok_truthy_status _ _ _ _ Hs).
  by destruct (statusPollInterval s).
Qed.

Lemma startLogsPolling_schedule (jobId : option string) (s : State) :
  inv s ->
  schedule (startLogsPolling jobId s) =
    (<[next_timer s := LogsTick jobId]>
       (from_option (fun h => delete h (timers s)) (timers s) (logsPollInterval s)),
     S (next_timer s), statusPollInterval s, Some (next_timer s)).
Proof.
  intros (Hs & _). unfold startLogsPolling.
  rewrite (schedule_ok_truthy_logs _ _ _ _ Hs).
  destruct (logsPollInterval s); simpl;
    by destruct (logs_section_display (logsView s)).
Qed.

Lemma startStatusPolling_requests (jobId : option string) (s : State) :
  pending (startStatusPolling jobId s) = pending s /\
  fetches (startStatusPolling jobId s) = fetches s /\
  page (startStatusPolling jobId s) = page s.
Proof.
  unfold startStatusPolling.
  by destruct (truthy_handle (statusPollInterval s)), (statusPollInterval s).
Qed.

Lemma startLogsPolling_requests (jobId : option string) (s : State) :
  pending (startLogsPolling jobId s) = pending s /\
  fetches (startLogsPolling jobId s) = fetches s.
Proof.
  unfold startLogsPolling.
  destruct (truthy_handle (logsPollInterval s)), (logsPollInterval s); simpl;
    by destruct (logs_section_display (logsView s)).
Qed.

Lemma inv_startStatusPolling (jobId : option string) (s : State) :
  inv s -> inv (startStatusPolling jobId s).
Proof.
  intros Hinv. pose proof (startStatusPolling_schedule jobId s Hinv) as E.
  destruct (startStatusPolling_requests jobId s) as (Ep & Ef & _).
  destruct Hinv as (Hs & Hn & Hp).
  apply (inv_of_schedule _ _ _ _ _ E); [|lia|by rewrite Ep, Ef].
  apply schedule_ok_start_status; [done|]. by apply schedule_ok_clear_status.
Qed.

Lemma inv_startLogsPolling (jobId : option string) (s : State) :
  inv s -> inv (startLogsPolling jobId s).
Proof.
  intros Hinv. pose proof (startLogsPolling_schedule jobId s Hinv) as E.
  destruct (startLogsPolling_requests jobId s) as (Ep & Ef).
  destruct Hinv as (Hs & Hn & Hp).
  apply (inv_of_schedule _ _ _ _ _ E); [|lia|by rewrite Ep, Ef].
  apply schedule_ok_start_logs; [done|]. by apply schedule_ok_clear_logs.
Qed.

(** The branch of the status tick that has seen a terminal status:
    from [clearInterval(statusPollInterval)] to the end of
    [if (logsPollInterval) { ... }]. *)
Lemma stop_both_schedule (s : State) :
  inv s ->
  let s1 := set_statusPollInterval None (clearInterval (statusPollInterval s) s) in
  let s2 := if truthy_handle (logsPollInterval s1)
            then set_logsPollInterval None (clearInterval (logsPollInterval s1) s1)
            else s1 in
  schedule s2 = (∅, next_timer s, None, None) /\ pending s2 = pending s /\
  fetches s2 = fetches s /\ page s2 = page s /\ browser s2 = browser s.
Proof.
  intros (Hs & Hn & Hp) s1 s2.
  pose proof (schedule_ok_truthy_logs _ _ _ _ Hs) as Htl.
  pose proof (schedule_ok_clear_logs _ _ _ _ (schedule_ok_clear_status _ _ _ _ Hs)) as Hnone.
  apply schedule_ok_none in Hnone. subst s2 s1.
  destruct (statusPollInterval s) as [h|], (logsPollInterval s) as [l|] eqn:El;
    simpl in *; rewrite ?El; simpl; rewrite ?Htl; simpl;
    unfold schedule, page; simpl; rewrite ?El, ?Hnone; done.
Qed.

Lemma stop_logs_schedule (s : State) :
  inv s ->
  let s1 := set_logsPollInterval None (clearInterval (logsPollInterval s) s) in
  schedule s1 =
    (from_option (fun h => delete h (timers s)) (timers s) (logsPollInterval s),
     next_timer s, statusPollInterval s, None) /\
  inv s1.
Proof.
  intros (Hs & Hn & Hp). simpl.
  assert (schedule (set_logsPollInterval None (clearInterval (logsPollInterval s) s))
          = (from_option (fun h => delete h (timers s)) (timers s) (logsPollInterval s),
             next_timer s, statusPollInterval s, None)) as E
    by (by destruct (logsPollInterval s)).
  split; [done|].
  apply (inv_of_schedule _ _ _ _ _ E); [by apply schedule_ok_clear_logs|done|].
  by destruct (logsPollInterval s).
Qed.

(** ** Responses *)


Lemma payload_Some (r : fetch_result) (o : Js.Object) :
  payload r = Some o <->
  exists response, r = Resolved response /\ ok response = true /\
    json_content_type response = true /\ json response = JsonValue o.
Proof.
  split.
  - destruct r as [m|response]; simpl; [done|].
    destruct (ok response) eqn:?, (json_content_type response) eqn:?,
      (json response) eqn:?; simpl; try done.
    intros [= ->]. by exists response.
  - intros (response & -> & H1 & H2 & H3). simpl. by rewrite H1, H2, H3.
Qed.

Lemma status_is_spec (o : Js.Object) (v : string) :
  status_is o v = true <-> Js.status o = Some v.
Proof.
  unfold status_is. destruct (Js.status o) as [st|]; [|done].
  rewrite String.eqb_eq. split; congruence.
Qed.

Lemma is_terminal_spec (o : Js.Object) : is_terminal o = true <-> terminal o.
Proof.
  unfold is_terminal, terminal. rewrite orb_true_iff, !status_is_spec. done.
Qed.

(** ** The status tick, case by case *)

Lemma status_tick_resume_transient jobId r s :
  payload r = None -> status_tick_resume jobId r s = s.
Proof.
  destruct r as [m|response]; simpl; [done|].
  by destruct (ok response), (json_content_type response), (json response).
Qed.

Lemma status_tick_resume_running jobId r o s :
  payload r = Some o -> is_terminal o = false ->
  status_tick_resume jobId r s = updateStatusDisplay o s.
Proof.
  intros (response & -> & H1 & H2 & H3)%payload_Some Ht. simpl.
  by rewrite H1, H2, H3, Ht.
Qed.

Lemma status_tick_resume_terminal jobId r o s :
  inv s -> payload r = Some o -> is_terminal o = true ->
  let s' := status_tick_resume jobId r s in
  schedule s' = (∅, next_timer s, None, None) /\
  statusView s' = statusView (updateStatusDisplay o s) /\
  (status_is o "completed" = true ->
     fetches s' = fetches s ++ [GET (results_url s jobId)] /\
     pending s' = <[length (fetches s) := AwaitResults jobId]> (pending s) /\
     errorView s' = errorView s) /\
  (status_is o "completed" = false ->
     fetches s' = fetches s /\ pending s' = pending s /\
     errorView s' =
       {| errorSection_display := "block";
          error_message_textContent := "Analysis failed. Please try again." |}).
Proof.
  intros Hinv (response & -> & H1 & H2 & H3)%payload_Some Ht.
  assert (inv (updateStatusDisplay o s)) as Hinv' by (by apply (inv_ext s)).
  destruct (stop_both_schedule _ Hinv') as (Es & Ep & Ef & Eg & Eb).
  simpl. rewrite H1, H2, H3, Ht. simpl.
  destruct (status_is o "completed") eqn:Hc.
  - unfold schedule, page in *. simpl in *.
    injection Es as -> -> -> ->. injection Eg as _ Ev Ee _ _ _.
    rewrite Ep, Ef. unfold results_url. rewrite Eb. simpl.
    repeat split; try done.
  - unfold schedule, page in *. simpl in *.
    injection Es as -> -> -> ->. injection Eg as _ Ev Ee _ _ _.
    rewrite Ep, Ef. repeat split; try done.
Qed.

Lemma inv_status_tick_resume jobId r s :
  inv s -> inv (status_tick_resume jobId r s).
Proof.
  intros Hinv. destruct (payload r) as [o|] eqn:Hr.
  - destruct (is_terminal o) eqn:Ht.
    + destruct (status_tick_resume_terminal jobId r o s Hinv Hr Ht)
        as (Es & _ & Hc & Hf).
      destruct Hinv as (Hs & Hn & Hp).
      apply (inv_of_schedule _ _ _ _ _ Es); [|done|].
      * split; [|split]; [|done|done]. intros h f Hf'. by rewrite lookup_empty in Hf'.
      * destruct (status_is o "completed").
        -- destruct (Hc eq_refl) as (-> & -> & _). intros id Hid.
           rewrite length_app. simpl.
           destruct (decide (id = length (fetches s))) as [->|Hne]; [lia|].
           rewrite lookup_insert_ne in Hid by done. apply Hp in Hid. lia.
        -- by destruct (Hf eq_refl) as (-> & -> & _).
    + rewrite (status_tick_resume_running jobId r o s Hr Ht). by apply (inv_ext s).
  - by rewrite status_tick_resume_transient.
Qed.

(** ** The other handlers keep the invariant *)

Lemma loadResults_resume_schedule r s :
  schedule (loadResults_resume r s) = schedule s /\
  pending (loadResults_resume r s) = pending s /\
  fetches (loadResults_resume r s) = fetches s.
Proof.
  destruct r as [m|response]; simpl; [done|].
  destruct (ok response); simpl; [|done].
  destruct (json response) as [m|data]; [done|].
  destruct (truthy_opt (Js.error data)); [done|].
  by destruct (Js.result data).
Qed.

Lemma loadHistory_resume_schedule r s :
  schedule (loadHistory_resume r s) = schedule s /\
  pending (loadHistory_resume r s) = pending s /\
  fetches (loadHistory_resume r s) = fetches s.
Proof.
  destruct r as [m|response]; simpl; [done|].
  destruct (ok response); simpl; [|done].
  destruct (json response) as [m|data]; [done|].
  destruct (Js.items data) as [items|]; [|done].
  unfold displayHistory. by case_bool_decide.
Qed.

Lemma displayLogs_schedule logs s :
  schedule (displayLogs logs s) = schedule s /\
  pending (displayLogs logs s) = pending s /\
  fetches (displayLogs logs s) = fetches s /\
  browser (displayLogs logs s) = browser s.
Proof. unfold displayLogs. by destruct (logs_container (logsView s)). Qed.

Lemma inv_logs_tick_resume jobId r s : inv s -> inv (logs_tick_resume jobId r s).
Proof.
  intros Hinv. destruct r as [m|response]; simpl; [done|].
  destruct (ok response); simpl; [|done].
  destruct (json_content_type response); simpl; [|done].
  destruct (json response) as [m|data]; [done|].
  apply inv_fetch.
  destruct (displayLogs_schedule (default [] (Js.logs data)) s) as (E1 & E2 & E3 & _).
  by apply (inv_ext s).
Qed.

Lemma inv_logs_tick_status_resume r s : inv s -> inv (logs_tick_status_resume r s).
Proof.
  intros Hinv. destruct r as [m|response]; simpl; [done|].
  destruct (ok response); simpl; [|done].
  destruct (json response) as [m|status]; [done|].
  destruct (is_terminal status); [|done].
  by apply stop_logs_schedule.
Qed.

Lemma inv_handleFormSubmit_resume r s : inv s -> inv (handleFormSubmit_resume r s).
Proof.
  intros Hinv.
  assert (forall m, inv (handleFormSubmit_catch m s)) as Hcatch
    by (intros m; by apply (inv_ext s)).
  destruct r as [m|response]; simpl; [done|].
  destruct (ok response); simpl; [|done].
  destruct (json response) as [m|data]; [done|].
  unfold loadHistory. apply inv_fetch.
  set (s1 := set_currentJobId (Js.job_id data) s).
  assert (inv s1) as H1 by (by apply (inv_ext s)).
  set (s2 := startStatusPolling (Js.job_id data) s1).
  assert (inv s2) as H2 by (by apply inv_startStatusPolling).
  set (s3 := startLogsPolling (Js.job_id data) s2).
  assert (inv s3) as H3 by (by apply inv_startLogsPolling).
  by apply (inv_ext s3).
Qed.

Lemma inv_handleFormSubmit s : inv s -> inv (handleFormSubmit s).
Proof.
  intros Hinv. unfold handleFormSubmit.
  destruct (truthy (trim (urlInput_value (form s)))); simpl.
  - apply inv_fetch. by apply (inv_ext s).
  - by apply (inv_ext s).
Qed.

Lemma inv_resume k r s : inv s -> inv (resume k r s).
Proof.
  intros Hinv. destruct k; simpl.
  - by apply inv_handleFormSubmit_resume.
  - by apply inv_status_tick_resume.
  - destruct (loadResults_resume_schedule r s) as (E1 & E2 & E3). by apply (inv_ext s).
  - by apply inv_logs_tick_resume.
  - by apply inv_logs_tick_status_resume.
  - destruct (loadHistory_resume_schedule r s) as (E1 & E2 & E3). by apply (inv_ext s).
Qed.

Lemma inv_step ev s : inv s -> inv (step ev s).
Proof.
  intros Hinv. destruct ev as [| value | | | jobId | h | id r]; simpl.
  - apply (inv_ext (loadHistory s)); [done..|]. by apply inv_fetch.
  - by apply (inv_ext s).
  - destruct (listening s); [by apply inv_handleFormSubmit|done].
  - destruct (listening s); [by apply inv_fetch|done].
  - apply inv_fetch. by apply (inv_ext s).
  - destruct (timers s !! h) as [[j|j]|]; [by apply inv_fetch..|done].
  - destruct (pending s !! id) as [k|]; [|done].
    by apply inv_resume, inv_settled.
Qed.

Lemma inv_initial s : initial s -> inv s.
Proof.
  intros (_ & _ & Hs & Hl & Ht & Hn & Hf & Hp). unfold inv.
  rewrite Hs, Hl, Ht, Hp. split; [|split; [done|]].
  - split; [|split]; [|done|done]. intros h f Hf'. by rewrite lookup_empty in Hf'.
  - intros id [k Hk]. by rewrite lookup_empty in Hk.
Qed.

Lemma reachable_inv s : reachable s -> inv s.
Proof. induction 1; [by apply inv_initial|by apply inv_step]. Qed.

Lemma reachable_run evs s : reachable s -> reachable (run evs s).
Proof.
  revert s. induction evs as [|ev evs IH]; intros s Hs; [done|].
  apply IH. by constructor.
Qed.

(** ** Status poller *)






(** C2: a status tick that observes a terminal status cancels, in
    that same step, its own schedule and the schedule of the log
    poller: both variables are [null] and no interval timer is left. *)
Theorem terminal_tick_stops_both_pollers (s : State) (ev : event) :
  reachable s -> observes_terminal s ev ->
  statusPollInterval (step ev s) = None /\
  logsPollInterval (step ev s) = None /\
  timers (step ev s) = ∅.
Proof.
  intros Hinv%reachable_inv [id jobId r o Hk Hr Ho]. simpl. rewrite Hk. simpl.
  pose proof (inv_settled id s Hinv) as Hinv'.
  apply is_terminal_spec in Ho.
  destruct (status_tick_resume_terminal jobId r o _ Hinv' Hr Ho) as (E & _).
  by apply schedule_eq in E as (-> & _ & -> & ->).
Qed.

(** ** Log stream poller *)


(** ** Status display *)



(** ** Form submission *)

(** C5: when the trimmed input is empty (the input is empty or only
    white space) the submission issues no request and shows the
    validation message; when it is not empty, it issues the
    submission request for the trimmed input. *)
Theorem empty_url_no_request (s : State) :
  listening s = true ->
  (trim (urlInput_value (form s)) = "" ->
     fetches (step Submit s) = fetches s /\
     pending (step Submit s) = pending s /\
     schedule (step Submit s) = schedule s /\
     errorView (step Submit s) =
       {| errorSection_display := "block";
          error_message_textContent := "Please enter a valid URL" |}) /\
  (trim (urlInput_value (form s)) <> "" ->
     fetches (step Submit s) =
       fetches s ++ [analyze_request s (trim (urlInput_value (form s)))]).
Proof.
  intros Hl. simpl. rewrite Hl. unfold handleFormSubmit.
  split; intros Hu.
  - by rewrite Hu.
  - destruct (trim (urlInput_value (form s))); done.
Qed.

(** C6: when the submission request fails (a network error or a
    non-2xx response) the error surface shows the message of the
    error, the status section is hidden, no timer is started and no
    request is issued. *)
Theorem failed_submission_reverts (s : State) (id : nat) (r : fetch_result) :
  pending s !! id = Some AwaitAnalyze ->
  request_failed r = true ->
  errorView (step (Settle id r) s) =
    {| errorSection_display := "block";
       error_message_textContent := "Error: " +:+ failure_message r |} /\
  statusSection_display (statusView (step (Settle id r) s)) = "none" /\
  schedule (step (Settle id r) s) = schedule s /\
  fetches (step (Settle id r) s) = fetches s.
Proof.
  intros Hk Hr. simpl. rewrite Hk. simpl.
  destruct r as [m|response]; simpl in *; [done|].
  by destruct (ok response).
Qed.

(** ** Terminal status *)

(** C7: when a status tick observes [failed], the fixed message
    "Analysis failed. Please try again." is shown and no request is
    issued; a status tick issues the results request exactly when it
    observes [completed]. *)
Theorem failed_status_no_results_fetch (s : State) (id : nat) (jobId : option string)
    (r : fetch_result) :
  reachable s ->
  pending s !! id = Some (AwaitStatus jobId) ->
  (forall o, payload r = Some o -> Js.status o = Some "failed" ->
     errorView (step (Settle id r) s) =
       {| errorSection_display := "block";
          error_message_textContent := "Analysis failed. Please try again." |} /\
     fetches (step (Settle id r) s) = fetches s) /\
  (fetches (step (Settle id r) s) =
     fetches s ++
     match payload r with
     | Some o => if bool_decide (Js.status o = Some "completed")
                 then [GET (results_url s jobId)] else []
     | None => []
     end).
Proof.
  intros Hinv%reachable_inv Hk. simpl. rewrite Hk. simpl.
  pose proof (inv_settled id s Hinv) as Hinv'. split.
  - intros o Hr Ho.
    assert (is_terminal o = true) as Ht by (apply is_terminal_spec; by right).
    destruct (status_tick_resume_terminal jobId r o _ Hinv' Hr Ht) as (_ & _ & _ & Hf).
    assert (status_is o "completed" = false) as Hc.
    { apply not_true_is_false. rewrite status_is_spec. congruence. }
    by destruct (Hf Hc) as (-> & _ & ->).
  - destruct (payload r) as [o|] eqn:Hr.
    + destruct (is_terminal o) eqn:Ht.
      * destruct (status_tick_resume_terminal jobId r o _ Hinv' Hr Ht) as (_ & _ & Hc & Hf).
        destruct (status_is o "completed") eqn:Hs.
        -- destruct (Hc eq_refl) as (-> & _). apply status_is_spec in Hs.
           by rewrite bool_decide_eq_true_2.
        -- destruct (Hf eq_refl) as (-> & _).
           rewrite bool_decide_eq_false_2; [by rewrite app_nil_r|].
           rewrite <- status_is_spec. congruence.
      * rewrite (status_tick_resume_running _ _ _ _ Hr Ht). simpl.
        rewrite bool_decide_eq_false_2; [by rewrite app_nil_r|].
        intros Hs. apply not_true_iff_false in Ht. apply Ht, is_terminal_spec. by left.
    + rewrite status_tick_resume_transient by done. simpl. by rewrite app_nil_r.
Qed.

(** ** Log classification *)

(** C8: the class of a log line is the one of the first rule of the
    table (worker, scraper, extractor, error, success) a marker of
    which occurs in the line, and plain when none does; so a line with
    an error marker and a component tag gets the class of a component
    tag, not the error class. *)
Theorem log_class_first_match (log : string) :
  log_className log = class_of (classify log) /\
  (has_error_marker log = true -> has_component_tag log = true ->
     component_tag (classify log) = true /\ classify log <> Error).
Proof.
  unfold log_className, classify, has_error_marker, has_component_tag. simpl.
  unfold has_marker. simpl. rewrite !orb_false_r.
  destruct (includes log "[WORKER]"); simpl; [by split|].
  destruct (includes log "[SCRAPER]"); simpl; [by split|].
  destruct (includes log "[EXTRACTOR]"); simpl; [by split|].
  split; [|done].
  destruct (includes log mark_cross), (includes log "ERROR"), (includes log "Error");
    simpl; try done;
    by destruct (includes log mark_check), (includes log "completed").
Qed.

(** ** Summary block *)



(** ** Results loader *)

(** C10: a results response that is 2xx and parses to an object with
    neither an [error] nor a [result] leaves the page as it is: no
    error shown, no results rendered, the status section as visible as
    before; and nothing is scheduled or requested. *)
Theorem results_without_fields_change_nothing (s : State) (id : nat)
    (jobId : option string) (response : response) (data : Js.Object) :
  pending s !! id = Some (AwaitResults jobId) ->
  ok response = true ->
  json response = JsonValue data ->
  Js.error data = None -> Js.result data = None ->
  page (step (Settle id (Resolved response)) s) = page s /\
  schedule (step (Settle id (Resolved response)) s) = schedule s /\
  fetches (step (Settle id (Resolved response)) s) = fetches s /\
  pending (step (Settle id (Resolved response)) s) = delete id (pending s).
Proof.
  intros Hk Hok Hj He Hr. simpl. rewrite Hk. simpl.
  by rewrite Hok, Hj, He, Hr.
Qed.

(** ** The examples are reachable *)

Lemma reachable_page0 : reachable Example.page0.
Proof. apply reachable_initial. repeat split; simpl; lia. Qed.

Lemma reachable_typed : reachable Example.typed.
Proof. apply reachable_run, reachable_page0. Qed.

Lemma reachable_polling : reachable Example.polling.
Proof. do 2 apply reachable_step. apply reachable_typed. Qed.

Lemma reachable_ticking : reachable Example.ticking.
Proof. apply reachable_step, reachable_polling. Qed.

(** ** Instances *)


Lemma terminal_tick_stops_both_pollers_witness :
  let ev := Settle 3 (Example.ok_json (Example.status_payload "failed" 40 (Some "scrape error"))) in
  reachable Example.ticking /\
  observes_terminal Example.ticking ev /\
  statusPollInterval (step ev Example.ticking) = None /\
  logsPollInterval (step ev Example.ticking) = None /\
  timers (step ev Example.ticking) = ∅.
Proof.
  intros ev.
  assert (observes_terminal Example.ticking ev) as Hobs.
  { apply (observes_terminal_intro _ 3 (Some "abc123") _
             (Example.status_payload "failed" 40 (Some "scrape error")));
      [vm_compute; reflexivity|vm_compute; reflexivity|right; vm_compute; reflexivity]. }
  split; [apply reachable_ticking|]. split; [exact Hobs|].
  apply (terminal_tick_stops_both_pollers Example.ticking ev);
    [apply reachable_ticking|exact Hobs].
Defined.





Lemma empty_url_no_request_witness :
  let s := run [DOMContentLoaded; Input "   "] Example.page0 in
  listening s = true /\ trim (urlInput_value (form s)) = "" /\
  fetches (step Submit s) = fetches s /\
  pending (step Submit s) = pending s /\
  schedule (step Submit s) = schedule s /\
  errorView (step Submit s) =
    {| errorSection_display := "block";
       error_message_textContent := "Please enter a valid URL" |}.
Proof.
  intros s. split; [vm_compute; reflexivity|]. split; [vm_compute; reflexivity|].
  assert (listening s = true) as Hl by (vm_compute; reflexivity).
  destruct (empty_url_no_request s Hl) as [H _].
  apply H. vm_compute; reflexivity.
Defined.

Lemma failed_submission_reverts_witness :
  let s := Example.submitted in
  let r := Example.server_error in
  pending s !! 1 = Some AwaitAnalyze /\ request_failed r = true /\
  errorView (step (Settle 1 r) s) =
    {| errorSection_display := "block";
       error_message_textContent := "Error: " +:+ failure_message r |} /\
  statusSection_display (statusView (step (Settle 1 r) s)) = "none" /\
  schedule (step (Settle 1 r) s) = schedule s /\
  fetches (step (Settle 1 r) s) = fetches s.
Proof.
  intros s r. split; [vm_compute; reflexivity|]. split; [vm_compute; reflexivity|].
  apply (failed_submission_reverts s 1 r); vm_compute; reflexivity.
Defined.

Lemma failed_status_no_results_fetch_witness :
  let s := Example.ticking in
  let o := Example.status_payload "failed" 40 (Some "scrape error") in
  reachable s /\ pending s !! 3 = Some (AwaitStatus (Some "abc123")) /\
  errorView (step (Settle 3 (Example.ok_json o)) s) =
    {| errorSection_display := "block";
       error_message_textContent := "Analysis failed. Please try again." |} /\
  fetches (step (Settle 3 (Example.ok_json o)) s) = fetches s.
Proof.
  intros s o. split; [apply reachable_ticking|]. split; [vm_compute; reflexivity|].
  assert (pending s !! 3 = Some (AwaitStatus (Some "abc123"))) as Hk
    by (vm_compute; reflexivity).
  destruct (failed_status_no_results_fetch s 3 (Some "abc123") (Example.ok_json o)
              reachable_ticking Hk) as [H _].
  apply (H o); vm_compute; reflexivity.
Defined.

Lemma log_class_first_match_witness :
  let log := "[SCRAPER] Error: timeout" in
  has_error_marker log = true /\ has_component_tag log = true /\
  component_tag (classify log) = true /\ classify log <> Error.
Proof.
  intros log. split; [vm_compute; reflexivity|]. split; [vm_compute; reflexivity|].
  destruct (log_class_first_match log) as [_ H].
  apply H; vm_compute; reflexivity.
Defined.



Lemma results_without_fields_change_nothing_witness :
  let s := Example.loading in
  let response :=
    {| ok := true; http_status := 200; content_type := Some "application/json";
       json := JsonValue Js.empty |} in
  pending s !! 4 = Some (AwaitResults (Some "abc123")) /\
  page (step (Settle 4 (Resolved response)) s) = page s /\
  schedule (step (Settle 4 (Resolved response)) s) = schedule s /\
  fetches (step (Settle 4 (Resolved response)) s) = fetches s /\
  pending (step (Settle 4 (Resolved response)) s) = delete 4 (pending s).
Proof.
  intros s response. split; [vm_compute; reflexivity|].
  apply (results_without_fields_change_nothing s 4 (Some "abc123") response Js.empty);
    vm_compute; reflexivity.
Defined.

(** * Further properties of the script *)

(** ** The schedule *)

Lemma size_handle_set (v : option nat) : size (handle_set v) <= 1.
Proof.
  destruct v as [h|]; unfold handle_set.
  - by rewrite size_singleton.
  - rewrite size_empty. lia.
Qed.

Lemma size_held_handles (s : State) : size (held_handles s) <= 2.
Proof.
  unfold held_handles. rewrite size_union_alt.
  pose proof (size_handle_set (statusPollInterval s)).
  pose proof (size_handle_set (logsPollInterval s)).
  assert (size (handle_set (logsPollInterval s) ∖ handle_set (statusPollInterval s))
          <= size (handle_set (logsPollInterval s)))
    by (apply subseteq_size, subseteq_difference_l; done).
  lia.
Qed.

(** X1: In every reachable state each running interval timer is held by
    the variable of its poller with the callback of that poller, each
    variable that is set holds a running timer, and so at most two
    timers run: one status poller and one log poller. *)
Theorem one_timer_per_poller (s : State) :
  reachable s ->
  (forall h f, timers s !! h = Some f ->
     (statusPollInterval s = Some h /\ exists jobId, f = StatusTick jobId) \/
     (logsPollInterval s = Some h /\ exists jobId, f = LogsTick jobId)) /\
  (forall h, statusPollInterval s = Some h ->
     exists jobId, timers s !! h = Some (StatusTick jobId)) /\
  (forall h, logsPollInterval s = Some h ->
     exists jobId, timers s !! h = Some (LogsTick jobId)) /\
  size (timers s) <= 2.
Proof.
  intros ((Ht & Hs & Hl) & _)%reachable_inv.
  split; [intros h f Hf; by destruct (Ht h f Hf) as [_ ?]|].
  split; [done|]. split; [done|].
  assert (dom (timers s) ⊆ held_handles s) as Hdom.
  { apply elem_of_subseteq. intros h Hh. apply elem_of_dom in Hh as [f Hf].
    unfold held_handles. rewrite elem_of_union.
    destruct (Ht h f Hf) as [_ [[-> _]|[-> _]]]; [left|right];
      unfold handle_set; by rewrite elem_of_singleton. }
  rewrite <- size_dom. etrans; [by apply subseteq_size|]. apply size_held_handles.
Qed.

(** ** Submission *)

(** X3: A submission with a non-empty trimmed URL puts the page in its
    processing state before the request settles: the status section
    is shown with the loading animation at full width and the message
    "Submitting analysis request...", error and results are hidden,
    the button is disabled and reads "Submitting...", the input keeps
    its text; timers already running are left running. *)
Theorem submit_shows_processing (s : State) :
  listening s = true ->
  trim (urlInput_value (form s)) <> "" ->
  statusView (step Submit s) =
    {| statusSection_display := "block";
       progressFill_width := "100%";
       progressFill_loading_animation := true;
       statusMessage_textContent := "Submitting analysis request...";
       statusDetails_textContent := "Processing..." |} /\
  errorSection_display (errorView (step Submit s)) = "none" /\
  resultsSection_display (resultsView (step Submit s)) = "none" /\
  form (step Submit s) =
    {| urlInput_value := urlInput_value (form s);
       submitBtn_disabled := true;
       submitBtn_textContent := "Submitting..." |} /\
  schedule (step Submit s) = schedule s /\
  pending (step Submit s) = <[length (fetches s) := AwaitAnalyze]> (pending s).
Proof.
  intros Hl Hu. simpl. rewrite Hl. unfold handleFormSubmit.
  destruct (trim (urlInput_value (form s))); done.
Qed.

Lemma startStatusPolling_frame (jobId : option string) (s : State) :
  browser (startStatusPolling jobId s) = browser s /\
  currentJobId (startStatusPolling jobId s) = currentJobId s /\
  listening (startStatusPolling jobId s) = listening s.
Proof.
  unfold startStatusPolling.
  by destruct (truthy_handle (statusPollInterval s)), (statusPollInterval s).
Qed.

Lemma startLogsPolling_frame (jobId : option string) (s : State) :
  browser (startLogsPolling jobId s) = browser s /\
  currentJobId (startLogsPolling jobId s) = currentJobId s /\
  listening (startLogsPolling jobId s) = listening s /\
  form (startLogsPolling jobId s) = form s /\
  statusView (startLogsPolling jobId s) = statusView s /\
  errorView (startLogsPolling jobId s) = errorView s /\
  resultsView (startLogsPolling jobId s) = resultsView s /\
  history_tbody (startLogsPolling jobId s) = history_tbody s.
Proof.
  unfold startLogsPolling.
  destruct (truthy_handle (logsPollInterval s)), (logsPollInterval s); simpl;
    by destruct (logs_section_display (logsView s)).
Qed.

(** X2: Once the submission succeeds (2xx, a body that parses), exactly two
    timers run, both new and both bound to the job identifier of the
    response: the status poller and the log poller; whatever timers
    ran before are cancelled.  The input is cleared, the button is
    enabled again and the history is requested afresh. *)
Theorem successful_submission_starts_pollers (s : State) (id : nat)
    (response : response) (data : Js.Object) :
  reachable s ->
  pending s !! id = Some AwaitAnalyze ->
  ok response = true -> json response = JsonValue data ->
  let s' := step (Settle id (Resolved response)) s in
  let n := next_timer s in
  timers s' =
    {[ n := StatusTick (Js.job_id data); S n := LogsTick (Js.job_id data) ]} /\
  statusPollInterval s' = Some n /\ logsPollInterval s' = Some (S n) /\
  currentJobId s' = Js.job_id data /\
  form s' = {| urlInput_value := ""; submitBtn_disabled := false;
               submitBtn_textContent := "Analyze Website" |} /\
  fetches s' = fetches s ++ [GET (API_BASE (browser s) +:+ "/history?limit=20")].
Proof.
  intros Hinv%reachable_inv Hk Hok Hj s' n. subst s'.
  set (s0 := set_pending (delete id (pending s)) s).
  assert (inv s0) as H0 by (by apply inv_settled).
  set (s1 := set_currentJobId (Js.job_id data) s0).
  assert (inv s1) as H1 by (by apply (inv_ext s0)).
  destruct (schedule_eq _ _ _ _ _ (startStatusPolling_schedule (Js.job_id data) s1 H1))
    as (T2 & N2 & S2 & L2).
  destruct (startStatusPolling_requests (Js.job_id data) s1) as (P2 & F2 & G2).
  set (s2 := startStatusPolling (Js.job_id data) s1) in *.
  assert (inv s2) as H2 by (by apply inv_startStatusPolling).
  destruct (schedule_eq _ _ _ _ _ (startLogsPolling_schedule (Js.job_id data) s2 H2))
    as (T3 & N3 & S3 & L3).
  destruct (startLogsPolling_requests (Js.job_id data) s2) as (P3 & F3).
  destruct (startStatusPolling_frame (Js.job_id data) s1) as (B2 & C2 & _).
  fold s2 in B2, C2.
  destruct (startLogsPolling_frame (Js.job_id data) s2) as (B3 & C3 & _).
  set (s3 := startLogsPolling (Js.job_id data) s2) in *.
  assert (step (Settle id (Resolved response)) s
          = loadHistory
              (set_form {| urlInput_value := ""; submitBtn_disabled := false;
                           submitBtn_textContent := "Analyze Website" |} s3)) as ->.
  { simpl. rewrite Hk. simpl. by rewrite Hok, Hj. }
  cbn [loadHistory fetch set_form set_pending set_fetches timers statusPollInterval
       logsPollInterval currentJobId form fetches browser].
  rewrite ?T3, ?N3, ?S3, ?L3, ?F3, ?B3, ?C3, ?N2, ?S2, ?L2, ?T2, ?F2, ?B2, ?C2.
  change (timers s1) with (timers s). change (next_timer s1) with (next_timer s).
  change (statusPollInterval s1) with (statusPollInterval s).
  change (logsPollInterval s1) with (logsPollInterval s).
  change (fetches s1) with (fetches s).
  change (browser s1) with (browser s). fold n.
  split; [|done].
  destruct Hinv as (Hok' & Hn & _).
  pose proof (schedule_ok_none _ _
                (schedule_ok_clear_logs _ _ _ _
                   (schedule_ok_clear_status _ _ _ _ Hok'))) as Hnone.
  destruct Hok' as (Ht & Hs & Hl).
  assert (from_option
            (fun h => delete h
               (<[n:=StatusTick (Js.job_id data)]>
                  (from_option (fun h0 => delete h0 (timers s)) (timers s)
                     (statusPollInterval s))))
            (<[n:=StatusTick (Js.job_id data)]>
               (from_option (fun h0 => delete h0 (timers s)) (timers s)
                  (statusPollInterval s)))
            (logsPollInterval s)
          = <[n:=StatusTick (Js.job_id data)]> (∅ : gmap nat callback)) as ->.
  { rewrite <- Hnone. destruct (logsPollInterval s) as [l|] eqn:El; simpl; [|done].
    destruct (Hl l eq_refl) as [j Hj']. apply Ht in Hj' as [Hlt _].
    rewrite delete_insert_ne by (unfold n; lia). done. }
  rewrite insert_insert_ne by lia. done.
Qed.

(** X5: A 2xx answer to the submission whose body does not parse is
    handled like a failed request: the parser's message is shown
    behind "Error: ", the status section is hidden, the button is
    enabled again, and no timer is started nor request issued. *)
Theorem unparseable_submission_reverts (s : State) (id : nat) (response : response)
    (error_message : string) :
  pending s !! id = Some AwaitAnalyze ->
  ok response = true -> json response = JsonReject error_message ->
  let s' := step (Settle id (Resolved response)) s in
  errorView s' =
    {| errorSection_display := "block";
       error_message_textContent := "Error: " +:+ error_message |} /\
  statusSection_display (statusView s') = "none" /\
  submitBtn_disabled (form s') = false /\
  submitBtn_textContent (form s') = "Analyze Website" /\
  schedule s' = schedule s /\ fetches s' = fetches s.
Proof.
  intros Hk Hok Hj. simpl. rewrite Hk. simpl. by rewrite Hok, Hj.
Qed.

(** ** Results loader *)

(** X8: A results payload with a non-empty [error] shows that error
    verbatim and renders nothing, whether or not it also carries a
    [result]: the results and the status section stay as they were. *)
Theorem results_error_field_wins (s : State) (id : nat) (jobId : option string)
    (response : response) (data : Js.Object) (msg : string) :
  pending s !! id = Some (AwaitResults jobId) ->
  ok response = true -> json response = JsonValue data ->
  Js.error data = Some msg -> msg <> "" ->
  let s' := step (Settle id (Resolved response)) s in
  errorView s' =
    {| errorSection_display := "block"; error_message_textContent := msg |} /\
  resultsView s' = resultsView s /\ statusView s' = statusView s /\
  schedule s' = schedule s /\ fetches s' = fetches s.
Proof.
  intros Hk Hok Hj He Hm. simpl. rewrite Hk. simpl. rewrite Hok, Hj, He. simpl.
  by destruct msg.
Qed.

(** X9: When the results request fails (network error or non-2xx) the
    error is shown behind "Error loading results: "; the request is
    not repeated, and the status and results sections stay as they
    were. *)
Theorem results_failure_shows_error (s : State) (id : nat) (jobId : option string)
    (r : fetch_result) :
  pending s !! id = Some (AwaitResults jobId) ->
  request_failed r = true ->
  let s' := step (Settle id r) s in
  errorView s' =
    {| errorSection_display := "block";
       error_message_textContent :=
         "Error loading results: " +:+ results_failure_message r |} /\
  resultsView s' = resultsView s /\ statusView s' = statusView s /\
  schedule s' = schedule s /\ fetches s' = fetches s /\
  pending s' = delete id (pending s).
Proof.
  intros Hk Hr. simpl. rewrite Hk. simpl.
  destruct r as [m|response]; simpl in *; [done|].
  by destruct (ok response).
Qed.


(** ** History *)

(** X11: A history response that cannot be used (network error, non-2xx, a
    body that does not parse, or no [items]) changes nothing: the
    table keeps what it showed.  An empty list of items gives the one
    row "No analysis history", and a non-empty list one row per item. *)
Theorem history_failure_keeps_table (s : State) (id : nat) (r : fetch_result) :
  pending s !! id = Some AwaitHistory ->
  let s' := step (Settle id r) s in
  schedule s' = schedule s /\ fetches s' = fetches s /\
  (form s', statusView s', errorView s', resultsView s', logsView s')
    = (form s, statusView s, errorView s, resultsView s, logsView s) /\
  history_tbody s' =
    match history_items r with
    | None => history_tbody s
    | Some [] =>
        cat ["<tr><td colspan="; dq; "4"; dq; " style="; dq; "text-align: center;"; dq;
             ">No analysis history</td></tr>"]
    | Some items =>
        join "" (map (fun item =>
                        history_row_html
                          (toLocaleString (browser s) (item_created_at item)) item)
                     items)
    end.
Proof.
  intros Hk. simpl. rewrite Hk. simpl.
  destruct r as [m|response]; simpl; [done|].
  destruct (ok response); simpl; [|done].
  destruct (json response) as [m|data]; [done|].
  destruct (Js.items data) as [[|item items]|]; done.
Qed.

(** ** Logs *)

(** X12: A logs tick that fails (network error, non-2xx, non-JSON) is
    silent: nothing is shown, scheduled or requested. *)
Theorem logs_tick_failure_is_silent (s : State) (id : nat) (jobId : option string)
    (r : fetch_result) :
  pending s !! id = Some (AwaitLogs jobId) ->
  transient_error r = true ->
  let s' := step (Settle id r) s in
  page s' = page s /\ schedule s' = schedule s /\ fetches s' = fetches s /\
  pending s' = delete id (pending s).
Proof.
  intros Hk Hr. simpl. rewrite Hk. simpl.
  destruct r as [m|response]; simpl in *; [done|].
  destruct (ok response); simpl in *; [|done].
  destruct (json_content_type response); simpl in *; [|done].
  by destruct (json response).
Qed.

(** ** Status display *)


(** ** Requests *)

(** [String.append] does not simplify by itself; these equations do. *)
Lemma append_cons (a : Ascii.ascii) (s t : string) :
  String a s +:+ t = String a (s +:+ t).
Proof. reflexivity. Qed.

Lemma append_empty_r (s : string) : s +:+ "" = s.
Proof. induction s as [|a s IH]; [done|]. by rewrite append_cons, IH. Qed.

Lemma append_assoc (s t u : string) : (s +:+ t) +:+ u = s +:+ (t +:+ u).
Proof. induction s as [|a s IH]; [done|]. by rewrite !append_cons, IH. Qed.

Lemma api_request_GET (b : Browser) (path : string) :
  api_request b (GET (cat [API_BASE b; path])).
Proof.
  left. repeat split. exists path. simpl. by rewrite append_empty_r.
Qed.

Lemma status_tick_resume_fetches jobId r s :
  browser (status_tick_resume jobId r s) = browser s /\
  (fetches (status_tick_resume jobId r s) = fetches s \/
   fetches (status_tick_resume jobId r s) = fetches s ++ [GET (results_url s jobId)]).
Proof.
  destruct r as [m|response]; simpl; [by split; [|left]|].
  destruct (ok response); simpl; [|by split; [|left]].
  destruct (json_content_type response); simpl; [|by split; [|left]].
  destruct (json response) as [m|o]; simpl; [by split; [|left]|].
  destruct (is_terminal o); [|by split; [|left]]. simpl.
  destruct (status_is o "completed"); simpl;
    destruct (statusPollInterval s); simpl;
    destruct (logsPollInterval s) as [[|l]|]; simpl; split; try done;
    by (left + right).
Qed.

Lemma resume_requests (k : continuation) (r : fetch_result) (s : State) :
  browser (resume k r s) = browser s /\
  exists new, fetches (resume k r s) = fetches s ++ new /\
              Forall (api_request (browser s)) new.
Proof.
  assert (forall s' : State, browser s' = browser s -> fetches s' = fetches s ->
            browser s' = browser s /\
            exists new, fetches s' = fetches s ++ new /\
                        Forall (api_request (browser s)) new) as Hsame.
  { intros s' Hb Hf. split; [done|]. exists []. by rewrite app_nil_r. }
  assert (forall (s' : State) path, browser s' = browser s ->
            fetches s' = fetches s ++ [GET (cat [API_BASE (browser s); path])] ->
            browser s' = browser s /\
            exists new, fetches s' = fetches s ++ new /\
                        Forall (api_request (browser s)) new) as Hone.
  { intros s' path Hb Hf. split; [done|]. eexists. split; [done|].
    constructor; [apply api_request_GET|done]. }
  destruct k as [|jobId|jobId|jobId|jobId|]; simpl.
  - destruct r as [m|response]; simpl; [by apply Hsame|].
    destruct (ok response); simpl; [|by apply Hsame].
    destruct (json response) as [m|data]; [by apply Hsame|].
    destruct (startStatusPolling_frame (Js.job_id data)
                (set_currentJobId (Js.job_id data) s)) as (B2 & _).
    destruct (startStatusPolling_requests (Js.job_id data)
                (set_currentJobId (Js.job_id data) s)) as (_ & F2 & _).
    set (s2 := startStatusPolling _ _) in *.
    destruct (startLogsPolling_frame (Js.job_id data) s2) as (B3 & _).
    destruct (startLogsPolling_requests (Js.job_id data) s2) as (_ & F3).
    set (s3 := startLogsPolling _ _) in *.
    apply (Hone _ "/history?limit=20");
      cbn [loadHistory fetch set_form set_pending set_fetches fetches browser];
      rewrite ?F3, ?B3, ?F2, ?B2; done.
  - destruct (status_tick_resume_fetches jobId r s) as (Hb & [Hf|Hf]);
      [by apply Hsame|].
    by apply (Hone _ ("/results/" +:+ to_string jobId)).
  - destruct (loadResults_resume_schedule r s) as (_ & _ & Hf). apply Hsame; [|done].
    destruct r as [m|response]; simpl; [done|].
    destruct (ok response); simpl; [|done].
    destruct (json response) as [m|data]; [done|].
    destruct (truthy_opt (Js.error data)); [done|].
    by destruct (Js.result data).
  - destruct r as [m|response]; simpl; [by apply Hsame|].
    destruct (ok response); simpl; [|by apply Hsame].
    destruct (json_content_type response); simpl; [|by apply Hsame].
    destruct (json response) as [m|data]; [by apply Hsame|].
    destruct (displayLogs_schedule (default [] (Js.logs data)) s) as (_ & _ & Hf & Hb).
    apply (Hone _ ("/status/" +:+ to_string jobId)); simpl; [done|].
    unfold status_url. by rewrite Hf, Hb.
  - apply Hsame.
    + destruct r as [m|response]; simpl; [done|].
      destruct (ok response); simpl; [|done].
      destruct (json response) as [m|status]; [done|].
      destruct (is_terminal status); [|done]. by destruct (logsPollInterval s).
    + destruct r as [m|response]; simpl; [done|].
      destruct (ok response); simpl; [|done].
      destruct (json response) as [m|status]; [done|].
      destruct (is_terminal status); [|done]. by destruct (logsPollInterval s).
  - destruct (loadHistory_resume_schedule r s) as (_ & _ & Hf). apply Hsame; [|done].
    destruct r as [m|response]; simpl; [done|].
    destruct (ok response); simpl; [|done].
    destruct (json response) as [m|data]; [done|].
    destruct (Js.items data) as [items|]; [|done].
    unfold displayHistory. by case_bool_decide.
Qed.

Lemma step_requests (ev : event) (s : State) :
  browser (step ev s) = browser s /\
  exists new, fetches (step ev s) = fetches s ++ new /\
              Forall (api_request (browser s)) new.
Proof.
  assert (browser s = browser s /\
          exists new, fetches s = fetches s ++ new /\
                      Forall (api_request (browser s)) new) as Hsame
    by (split; [done|]; exists []; by rewrite app_nil_r).
  destruct ev as [| value | | | jobId | h | id r]; simpl.
  - split; [done|]. eexists. split; [done|].
    constructor; [apply api_request_GET|done].
  - done.
  - destruct (listening s); [|done]. unfold handleFormSubmit.
    destruct (truthy (trim (urlInput_value (form s)))); simpl; [|done].
    split; [done|]. eexists. split; [done|]. constructor; [|done].
    right. split; [done|]. simpl. f_equal.
  - destruct (listening s); [|done]. split; [done|]. eexists. split; [done|].
    constructor; [apply api_request_GET|done].
  - split; [done|]. eexists. split; [done|].
    constructor; [apply (api_request_GET _ ("/results/" +:+ jobId))|done].
  - destruct (timers s !! h) as [[j|j]|]; [| |done].
    + split; [done|]. eexists. split; [done|].
      constructor; [apply (api_request_GET _ ("/status/" +:+ to_string j))|done].
    + split; [done|]. eexists. split; [done|].
      constructor; [apply (api_request_GET _ ("/logs/" +:+ to_string j))|done].
  - destruct (pending s !! id) as [k|]; [|done].
    apply (resume_requests k r (set_pending (delete id (pending s)) s)).
Qed.

(** X7: The script only ever talks to the HTTP API: every request issued
    on the way to a reachable state is a [GET] without body below
    [API_BASE], or the [POST] of a submission to [API_BASE/analyze];
    and [API_BASE] never changes. *)
Theorem only_api_requests (s : State) :
  reachable s -> Forall (api_request (browser s)) (fetches s).
Proof.
  induction 1 as [s Hinit|ev s Hs IH].
  - destruct Hinit as (_ & _ & _ & _ & _ & _ & -> & _). constructor.
  - destruct (step_requests ev s) as (-> & new & -> & Hnew).
    by apply Forall_app.
Qed.

(** ** Substrings *)

Lemma prefix_spec (t s : string) :
  String.prefix t s = true <-> exists b, s = t +:+ b.
Proof.
  revert s. induction t as [|c t IH]; intros s; simpl.
  - destruct s; split; eauto.
  - destruct s as [|d s]; simpl.
    + split; [done|]. by intros [b Hb].
    + destruct (Ascii.ascii_dec c d) as [->|Hne].
      * rewrite IH. split; intros [b Hb]; exists b.
        -- by rewrite append_cons, Hb.
        -- rewrite append_cons in Hb. congruence.
      * split; [done|]. intros [b Hb]. rewrite append_cons in Hb. congruence.
Qed.

Lemma includes_nil (t : string) : includes "" t = String.prefix t "".
Proof. unfold includes. by rewrite orb_false_r. Qed.

Lemma includes_cons (c : Ascii.ascii) (s t : string) :
  includes (String c s) t = String.prefix t (String c s) || includes s t.
Proof. reflexivity. Qed.

Lemma includes_spec (s t : string) : includes s t = true <-> occurs_in t s.
Proof.
  unfold occurs_in. split.
  - induction s as [|c s IH].
    + rewrite includes_nil. intros [b Hb]%prefix_spec. by exists "", b.
    + rewrite includes_cons, orb_true_iff.
      intros [[b Hb]%prefix_spec|(a & b & ->)%IH]; [by exists "", b|].
      by exists (String c a), b.
  - intros (a & b & ->). induction a as [|c a IH].
    + assert (String.prefix t ("" +:+ t +:+ b) = true) as Hp
        by (apply prefix_spec; by exists b).
      destruct ("" +:+ t +:+ b) as [|c u];
        [by rewrite includes_nil|by rewrite includes_cons, Hp].
    + rewrite append_cons, includes_cons. by rewrite IH, orb_true_r.
Qed.

Lemma includes_app_l (s q t : string) :
  includes s t = true -> includes (s +:+ q) t = true.
Proof.
  rewrite !includes_spec. intros (a & b & ->). exists a, (b +:+ q).
  by rewrite !append_assoc.
Qed.

Lemma includes_app_r (p s t : string) :
  includes s t = true -> includes (p +:+ s) t = true.
Proof.
  rewrite !includes_spec. intros (a & b & ->). exists (p +:+ a), b.
  by rewrite !append_assoc.
Qed.

Lemma includes_self (t : string) : includes t t = true.
Proof. apply includes_spec. exists "", "". by rewrite append_empty_r. Qed.

Lemma cat_cons (x : string) (l : list string) : cat (x :: l) = x +:+ cat l.
Proof. reflexivity. Qed.

Lemma cat_app (l1 l2 : list string) : cat (l1 ++ l2) = cat l1 +:+ cat l2.
Proof.
  induction l1 as [|x l1 IH]; [done|].
  by rewrite <- app_comm_cons, !cat_cons, IH, append_assoc.
Qed.

Lemma includes_cat_elem (x t : string) (l : list string) :
  x ∈ l -> includes x t = true -> includes (cat l) t = true.
Proof.
  intros Hx Ht. induction l as [|y l IH]; [by apply elem_of_nil in Hx|].
  rewrite cat_cons. apply elem_of_cons in Hx as [<-|Hx].
  - by apply includes_app_l.
  - by apply includes_app_r, IH.
Qed.

Lemma includes_cat_slice (k n : nat) (l : list string) :
  includes (cat l) (cat (take n (drop k l))) = true.
Proof.
  rewrite <- (take_drop k l) at 1. rewrite cat_app. apply includes_app_r.
  rewrite <- (take_drop n (drop k l)) at 1. rewrite cat_app.
  apply includes_app_l, includes_self.
Qed.

Lemma includes_cat_from (k n : nat) (p x : string) (l : list string) :
  l !! k = Some (p +:+ x) ->
  includes (cat l) (cat (x :: take n (drop (S k) l))) = true.
Proof.
  intros Hk. apply includes_spec.
  exists (cat (take k l) +:+ p), (cat (drop n (drop (S k) l))).
  rewrite <- (take_drop_middle l k (p +:+ x) Hk) at 1.
  rewrite cat_app, !cat_cons.
  rewrite <- (take_drop n (drop (S k) l)) at 1.
  by rewrite cat_app, !append_assoc.
Qed.

(** ** Log classes, by substring *)

(** X14: A log line gets the worker class exactly when "[WORKER]" occurs in
    it, the scraper class exactly when "[SCRAPER]" occurs and
    "[WORKER]" does not, and the extractor class exactly when
    "[EXTRACTOR]" occurs and neither of the other two tags does. *)
Theorem component_class_iff_tag_occurs (log : string) :
  (log_className log = "log-line worker" <-> occurs_in "[WORKER]" log) /\
  (log_className log = "log-line scraper" <->
     ~ occurs_in "[WORKER]" log /\ occurs_in "[SCRAPER]" log) /\
  (log_className log = "log-line extractor" <->
     ~ occurs_in "[WORKER]" log /\ ~ occurs_in "[SCRAPER]" log /\
     occurs_in "[EXTRACTOR]" log).
Proof.
  rewrite <- !includes_spec. unfold log_className.
  destruct (includes log "[WORKER]"); simpl.
  { repeat split; try done; intros [? ?]; done. }
  destruct (includes log "[SCRAPER]"); simpl.
  { repeat split; try done. by intros (_ & ? & _). }
  destruct (includes log "[EXTRACTOR]"); simpl.
  { repeat split; try done; intros [_ ?]; done. }
  destruct (includes log mark_cross || includes log "ERROR" || includes log "Error"),
    (includes log mark_check || includes log "completed");
    repeat split; try done;
    try (intros H; vm_compute in H; discriminate);
    try (intros [_ ?]; done); try (intros (_ & _ & ?); done).
Qed.

(** ** Rendering *)

Lemma concat_empty (l : list string) : String.concat "" l = cat l.
Proof.
  induction l as [|x [|y l] IH]; [done|by rewrite cat_cons, append_empty_r|].
  change (String.concat "" (x :: y :: l)) with (x +:+ "" +:+ String.concat "" (y :: l)).
  by rewrite IH, cat_cons.
Qed.

(** X15: A flag with at least one evidence snippet renders a header that
    counts the snippets, "Evidence (1 snippet)" for one and
    "Evidence (n snippets)" for more, and lists every snippet with its
    number, counted from 1, between quoted ellipses. *)
Theorem evidence_is_counted_and_numbered (title : string) (flag : Flag)
    (ev : list string) :
  evidence flag = Some ev -> 0 < length ev ->
  occurs_in
    (cat ["<summary><strong>Evidence ("; pretty (length ev); " snippet";
          (if bool_decide (1 < length ev) then "s" else "");
          ")</strong></summary>"])
    (renderFlagItem title flag) /\
  (forall idx snippet, ev !! idx = Some snippet ->
     occurs_in
       (cat ["<span class="; dq; "evidence-number"; dq; ">"; pretty (idx + 1); ".</span>";
             nl; "                                <span class="; dq; "evidence-text"; dq;
             ">"; dq; "..."; snippet; "..."; dq; "</span>"])
       (renderFlagItem title flag)).
Proof.
  intros Hev Hlen. rewrite <- includes_spec.
  setoid_rewrite <- includes_spec.
  unfold renderFlagItem. rewrite Hev.
  rewrite (bool_decide_eq_true_2 (0 < length ev)) by done.
  cbv zeta. split.
  - eapply includes_cat_elem.
    { do 21 apply list_elem_of_further. apply list_elem_of_here. }
    apply (includes_cat_from 7 4 "                    ").
    reflexivity.
  - intros idx snippet Hidx.
    eapply includes_cat_elem.
    { do 21 apply list_elem_of_further. apply list_elem_of_here. }
    eapply includes_cat_elem.
    { do 20 apply list_elem_of_further. apply list_elem_of_here. }
    unfold join. rewrite concat_empty.
    apply (includes_cat_elem (evidence_item_html idx snippet)).
    { apply list_elem_of_lookup. exists idx. by rewrite list_lookup_imap, Hidx. }
    unfold evidence_item_html.
    apply (includes_cat_from 7 18 "                                ").
    reflexivity.
Qed.

(** X16: The company registration block shows the fixed "not found" text
    exactly when the registration is missing or none of its six fields
    is a non-empty string. *)
Theorem company_registration_not_found_iff (c : option CompanyRegistration) :
  company_registration_html c = "<p>No company registration details found.</p>" <->
  match c with
  | None => True
  | Some reg =>
      Forall (fun v => truthy_opt v = false)
        [company_number reg; vat_number reg; eori_number reg; company_name reg;
         established_date reg; country_of_registration reg]
  end.
Proof.
  destruct c as [reg|]; [|done]. unfold company_registration_html, some_value.
  rewrite !Forall_cons, Forall_nil.
  destruct (truthy_opt (company_number reg)), (truthy_opt (vat_number reg)),
    (truthy_opt (eori_number reg)), (truthy_opt (company_name reg)),
    (truthy_opt (established_date reg)), (truthy_opt (country_of_registration reg));
    simpl; split; try done;
    try (intros H; discriminate H);
    try (intros (? & ? & ? & ? & ? & ? & _); done).
Qed.

(** X17: The address block shows "No address found on website." exactly
    when the address string is missing or empty. *)
Theorem address_not_found_iff (a : Address) :
  address_html a = "<p>No address found on website.</p>" <->
  truthy_opt (address_text a) = false.
Proof.
  unfold address_html. destruct (address_text a) as [addr|]; simpl; [|done].
  destruct (truthy addr); [|done]. split; [|done].
  cbv zeta. intros H. discriminate H.
Qed.

(** ** White space *)

Lemma trimStart_whitespace (l : list nat) :
  Forall (fun a => ws1 a = true) l -> trimStart_codes l = [].
Proof. induction 1 as [|a l Ha _ IH]; [done|]. simpl. by rewrite Ha. Qed.

(** X4: A URL field that holds only white space (spaces, tabs, line breaks)
    submits nothing: the validation message is shown, no request is
    issued, and the form and the status display stay as they are. *)
Theorem whitespace_only_url_is_rejected (s : State) :
  listening s = true ->
  ascii_whitespace_only (urlInput_value (form s)) ->
  errorView (step Submit s) =
    {| errorSection_display := "block";
       error_message_textContent := "Please enter a valid URL" |} /\
  fetches (step Submit s) = fetches s /\ pending (step Submit s) = pending s /\
  form (step Submit s) = form s /\ statusView (step Submit s) = statusView s /\
  resultsView (step Submit s) = resultsView s /\
  schedule (step Submit s) = schedule s.
Proof.
  intros Hl Hws. simpl. rewrite Hl. unfold handleFormSubmit, trim.
  unfold ascii_whitespace_only in Hws. by rewrite (trimStart_whitespace _ Hws).
Qed.

(** ** Status ticks that go on *)

(** X6: A status tick that sees a status other than [completed] and
    [failed] only rewrites the status display from its payload: no
    timer, request, error, result or log display changes. *)
Theorem running_tick_only_updates_display (s : State) (id : nat)
    (jobId : option string) (r : fetch_result) (o : Js.Object) :
  pending s !! id = Some (AwaitStatus jobId) ->
  payload r = Some o -> ~ terminal o ->
  let s' := step (Settle id r) s in
  statusView s' = statusView (updateStatusDisplay o s) /\
  schedule s' = schedule s /\ fetches s' = fetches s /\
  (form s', errorView s', resultsView s', logsView s', history_tbody s')
    = (form s, errorView s, resultsView s, logsView s, history_tbody s).
Proof.
  intros Hk Hr Ht. simpl. rewrite Hk. simpl.
  assert (is_terminal o = false) as Ht'.
  { apply not_true_is_false. by rewrite is_terminal_spec. }
  by rewrite (status_tick_resume_running _ _ _ _ Hr Ht').
Qed.

(** ** History rows *)

(** X18: The row of a completed history item carries a "View Results"
    button whose [onclick] calls [viewResults] with the job identifier
    of the item. *)
Theorem completed_row_has_view_button (createdDate : string) (item : HistoryItem) :
  item_status item = "completed" ->
  occurs_in
    (cat ["<button class="; dq; "btn-small"; dq; " onclick="; dq; "viewResults('";
          item_job_id item; "')"; dq; ">View Results</button>"])
    (history_row_html createdDate item).
Proof.
  intros Hs. apply includes_spec. unfold history_row_html. rewrite Hs.
  change (String.eqb "completed" "completed") with true. cbv iota zeta.
  eapply includes_cat_elem.
  { do 23 apply list_elem_of_further. apply list_elem_of_here. }
  apply (includes_cat_from 1 10 "                        ").
  reflexivity.
Qed.

(** ** Instances of the further properties *)

Lemma reachable_submitted : reachable Example.submitted.
Proof. apply reachable_step, reachable_typed. Qed.

Lemma one_timer_per_poller_witness :
  reachable Example.polling /\ size (timers Example.polling) <= 2.
Proof.
  split; [apply reachable_polling|].
  apply (one_timer_per_poller Example.polling reachable_polling).
Defined.

Lemma submit_shows_processing_witness :
  listening Example.typed = true /\
  trim (urlInput_value (form Example.typed)) <> "" /\
  statusSection_display (statusView (step Submit Example.typed)) = "block" /\
  submitBtn_disabled (form (step Submit Example.typed)) = true.
Proof.
  assert (listening Example.typed = true) as Hl by (vm_compute; reflexivity).
  assert (trim (urlInput_value (form Example.typed)) <> "") as Hu
    by (vm_compute; discriminate).
  split; [exact Hl|]. split; [exact Hu|].
  destruct (submit_shows_processing Example.typed Hl Hu) as (Hv & _ & _ & Hf & _).
  rewrite Hv, Hf. split; reflexivity.
Defined.

Lemma successful_submission_starts_pollers_witness :
  let response :=
    {| ok := true; http_status := 200; content_type := Some "application/json";
       json := JsonValue (Example.job_payload "abc123") |} in
  reachable Example.submitted /\
  pending Example.submitted !! 1 = Some AwaitAnalyze /\
  timers (step (Settle 1 (Resolved response)) Example.submitted) =
    {[ 1 := StatusTick (Some "abc123"); 2 := LogsTick (Some "abc123") ]}.
Proof.
  intros response.
  assert (pending Example.submitted !! 1 = Some AwaitAnalyze) as Hk
    by (vm_compute; reflexivity).
  split; [apply reachable_submitted|]. split; [exact Hk|].
  destruct (successful_submission_starts_pollers Example.submitted 1 response
              (Example.job_payload "abc123") reachable_submitted Hk eq_refl eq_refl)
    as (Ht & _).
  exact Ht.
Defined.

Lemma unparseable_submission_reverts_witness :
  let response :=
    {| ok := true; http_status := 200; content_type := Some "text/html";
       json := JsonReject "Unexpected token <" |} in
  pending Example.submitted !! 1 = Some AwaitAnalyze /\
  errorView (step (Settle 1 (Resolved response)) Example.submitted) =
    {| errorSection_display := "block";
       error_message_textContent := "Error: " +:+ "Unexpected token <" |}.
Proof.
  intros response.
  assert (pending Example.submitted !! 1 = Some AwaitAnalyze) as Hk
    by (vm_compute; reflexivity).
  split; [exact Hk|].
  apply (unparseable_submission_reverts Example.submitted 1 response
           "Unexpected token <" Hk eq_refl eq_refl).
Defined.

Lemma results_error_field_wins_witness :
  let data := Example.result_payload (Some "analysis crashed") (Some Example.sample_result) in
  let response :=
    {| ok := true; http_status := 200; content_type := Some "application/json";
       json := JsonValue data |} in
  pending Example.loading !! 4 = Some (AwaitResults (Some "abc123")) /\
  "analysis crashed" <> "" /\
  errorView (step (Settle 4 (Resolved response)) Example.loading) =
    {| errorSection_display := "block";
       error_message_textContent := "analysis crashed" |} /\
  resultsView (step (Settle 4 (Resolved response)) Example.loading)
    = resultsView Example.loading.
Proof.
  intros data response.
  assert (pending Example.loading !! 4 = Some (AwaitResults (Some "abc123"))) as Hk
    by (vm_compute; reflexivity).
  assert ("analysis crashed" <> "") as Hm by discriminate.
  split; [exact Hk|]. split; [exact Hm|].
  destruct (results_error_field_wins Example.loading 4 (Some "abc123") response data
              "analysis crashed" Hk eq_refl eq_refl eq_refl Hm) as (He & Hr & _).
  split; [exact He|exact Hr].
Defined.

Lemma results_failure_shows_error_witness :
  pending Example.loading !! 4 = Some (AwaitResults (Some "abc123")) /\
  request_failed Example.server_error = true /\
  errorView (step (Settle 4 Example.server_error) Example.loading) =
    {| errorSection_display := "block";
       error_message_textContent :=
         "Error loading results: " +:+ results_failure_message Example.server_error |}.
Proof.
  assert (pending Example.loading !! 4 = Some (AwaitResults (Some "abc123"))) as Hk
    by (vm_compute; reflexivity).
  split; [exact Hk|]. split; [reflexivity|].
  apply (results_failure_shows_error Example.loading 4 (Some "abc123")
           Example.server_error Hk eq_refl).
Defined.


Lemma history_failure_keeps_table_witness :
  pending Example.typed !! 0 = Some AwaitHistory /\
  history_tbody (step (Settle 0 Example.server_error) Example.typed)
    = history_tbody Example.typed.
Proof.
  assert (pending Example.typed !! 0 = Some AwaitHistory) as Hk
    by (vm_compute; reflexivity).
  split; [exact Hk|].
  destruct (history_failure_keeps_table Example.typed 0 Example.server_error Hk)
    as (_ & _ & _ & Hh).
  exact Hh.
Defined.

Lemma logs_tick_failure_is_silent_witness :
  pending Example.logging !! 3 = Some (AwaitLogs (Some "abc123")) /\
  transient_error Example.html_page = true /\
  page (step (Settle 3 Example.html_page) Example.logging) = page Example.logging /\
  schedule (step (Settle 3 Example.html_page) Example.logging)
    = schedule Example.logging.
Proof.
  assert (pending Example.logging !! 3 = Some (AwaitLogs (Some "abc123"))) as Hk
    by (vm_compute; reflexivity).
  split; [exact Hk|]. split; [reflexivity|].
  destruct (logs_tick_failure_is_silent Example.logging 3 (Some "abc123")
              Example.html_page Hk eq_refl) as (Hp & Hs & _).
  split; [exact Hp|exact Hs].
Defined.


Lemma only_api_requests_witness :
  reachable Example.polling /\
  Forall (api_request (browser Example.polling)) (fetches Example.polling).
Proof.
  split; [apply reachable_polling|].
  apply (only_api_requests Example.polling reachable_polling).
Defined.

Lemma evidence_is_counted_and_numbered_witness :
  let ev := ["sanctioned in 2020"; "subsidiary of ACME"; "export ban"] in
  evidence Example.sample_flag = Some ev /\ 0 < length ev /\
  occurs_in
    (cat ["<summary><strong>Evidence ("; pretty (length ev); " snippet";
          (if bool_decide (1 < length ev) then "s" else "");
          ")</strong></summary>"])
    (renderFlagItem "Sanctions Check" Example.sample_flag).
Proof.
  intros ev.
  assert (0 < length ev) as Hlen by (vm_compute; lia).
  split; [reflexivity|]. split; [exact Hlen|].
  destruct (evidence_is_counted_and_numbered "Sanctions Check" Example.sample_flag ev
              eq_refl Hlen) as (H & _).
  exact H.
Defined.

Lemma whitespace_only_url_is_rejected_witness :
  let s := run [DOMContentLoaded; Input (bytes [32; 9; 32])] Example.page0 in
  listening s = true /\ ascii_whitespace_only (urlInput_value (form s)) /\
  fetches (step Submit s) = fetches s /\
  errorView (step Submit s) =
    {| errorSection_display := "block";
       error_message_textContent := "Please enter a valid URL" |}.
Proof.
  intros s.
  assert (listening s = true) as Hl by (vm_compute; reflexivity).
  assert (ascii_whitespace_only (urlInput_value (form s))) as Hws
    by (vm_compute; repeat constructor).
  split; [exact Hl|]. split; [exact Hws|].
  destruct (whitespace_only_url_is_rejected s Hl Hws) as (He & Hf & _).
  split; [exact Hf|exact He].
Defined.

Lemma running_tick_only_updates_display_witness :
  let o := Example.status_payload "processing" 60 None in
  pending Example.ticking !! 3 = Some (AwaitStatus (Some "abc123")) /\
  ~ terminal o /\
  schedule (step (Settle 3 (Example.ok_json o)) Example.ticking)
    = schedule Example.ticking /\
  fetches (step (Settle 3 (Example.ok_json o)) Example.ticking)
    = fetches Example.ticking.
Proof.
  intros o.
  assert (pending Example.ticking !! 3 = Some (AwaitStatus (Some "abc123"))) as Hk
    by (vm_compute; reflexivity).
  assert (~ terminal o) as Ht by (intros [H|H]; vm_compute in H; discriminate H).
  split; [exact Hk|]. split; [exact Ht|].
  destruct (running_tick_only_updates_display Example.ticking 3 (Some "abc123")
              (Example.ok_json o) o Hk eq_refl Ht) as (_ & Hs & Hf & _).
  split; [exact Hs|exact Hf].
Defined.

Lemma completed_row_has_view_button_witness :
  item_status Example.completed_item = "completed" /\
  occurs_in
    (cat ["<button class="; dq; "btn-small"; dq; " onclick="; dq; "viewResults('";
          item_job_id Example.completed_item; "')"; dq; ">View Results</button>"])
    (history_row_html "1/1/2025, 10:00:00 AM" Example.completed_item).
Proof.
  split; [reflexivity|].
  apply (completed_row_has_view_button "1/1/2025, 10:00:00 AM" Example.completed_item).
  reflexivity.
Defined.
